(** * Bus booking API: seat availability, booking admission and trip search

    A shallow embedding of [main.py] (the FastAPI handlers [search_trips],
    [book_trip] and [list_bookings]) and of the collection schemas of
    [schemas.py], over a model of the document store the handlers talk to.

    Layout:
    - [Py]        the Python built-ins the handlers use ([sum], [max], [str]);
    - [Bson]      the store's native identifier, [ObjectId];
    - [Pcre]      the fragment of the regular expressions of the store that
                  the route query is evaluated on;
    - [Schemas]   the three record kinds, as documents;
    - [Database]  the store collaborator and the monad the handlers run in;
    - [Main]      the handlers;
    - the properties. *)

From Stdlib Require Import ZArith NArith List String Ascii Bool Lia.
From Stdlib Require Import QArith_base DecimalString DecimalZ Permutation.
Import ListNotations.

Local Open Scope Z_scope.
Local Open Scope string_scope.
Local Open Scope list_scope.

(* ------------------------------------------------------------------ *)
(** ** Python built-ins *)

Module Py.

(** [sum(xs)]: a left fold from the integer [0]. *)
Definition sum (xs : list Z) : Z := fold_left Z.add xs 0.

(** [d.get(key, default)] on a field that the document may lack. *)
Definition get {A} (field : option A) (default : A) : A :=
  match field with
  | Some v => v
  | None => default
  end.

(** [str(n)] / [f"{n}"] for an integer: its decimal numeral. *)
Definition str (n : Z) : string := NilZero.string_of_int (Z.to_int n).

(** The inverse reading of a decimal numeral, [int(s)]. *)
Definition int_of_str (s : string) : option Z :=
  option_map Z.of_int (NilZero.int_of_string s).

(** Truthiness of an optional string ([None] and [""] are falsy). *)
Definition truthy (s : option string) : bool :=
  match s with
  | Some (String _ _) => true
  | _ => false
  end.

Definition is_upper (c : ascii) : bool :=
  ((65 <=? nat_of_ascii c) && (nat_of_ascii c <=? 90))%nat.

(** ASCII case folding of one character and of a string. *)
Definition lower_ascii (c : ascii) : ascii :=
  if is_upper c then ascii_of_nat (nat_of_ascii c + 32) else c.

Fixpoint lower (s : string) : string :=
  match s with
  | EmptyString => EmptyString
  | String c s' => String (lower_ascii c) (lower s')
  end.

(** Equality of two strings up to the case of their ASCII letters. *)
Definition ci_eq (a b : string) : bool := String.eqb (lower a) (lower b).

End Py.

(* ------------------------------------------------------------------ *)
(** ** Exceptions *)

(** What a handler can raise: the [HTTPException]s it builds itself, the
    [InvalidId] of [bson], and the two failures of a store call (the server
    cannot be reached; the server rejects the query). *)
Inductive exn : Type :=
| HTTPException (status_code : Z) (detail : string)
| InvalidId
| ServerUnavailable
| OperationFailure.

(* ------------------------------------------------------------------ *)
(** ** The store's native identifier *)

Module Bson.

(** An identifier is kept as the text [str] prints it with: 24
    hexadecimal digits, letters in lower case. *)
Definition oid : Type := string.

Definition is_hex (c : ascii) : bool :=
  let n := nat_of_ascii c in
  (((48 <=? n) && (n <=? 57)) || ((97 <=? n) && (n <=? 102))
   || ((65 <=? n) && (n <=? 70)))%nat.

(** [ObjectId(s)]: accepts a string of 24 hexadecimal digits, of either
    case, and raises [InvalidId] on anything else. *)
Definition ObjectId (s : string) : exn + oid :=
  if (String.length s =? 24)%nat && forallb is_hex (list_ascii_of_string s)
  then inr (Py.lower s)
  else inl InvalidId.

(** [str(oid)]. *)
Definition str (o : oid) : string := o.

(** The identifiers the store hands out: the ones [ObjectId] reads back
    unchanged. *)
Definition canonical (s : string) : Prop := ObjectId s = inr s.

Definition hex_digit (n : N) : ascii :=
  ascii_of_N (if (n <? 10)%N then 48 + n else 87 + n)%N.

Fixpoint hex (width : nat) (n : N) (acc : string) : string :=
  match width with
  | O => acc
  | S w => hex w (n / 16)%N (String (hex_digit (n mod 16)%N) acc)
  end.

(** The identifier generated from the store's counter. *)
Definition of_counter (n : N) : oid := hex 24 n EmptyString.

End Bson.

(* ------------------------------------------------------------------ *)
(** ** Regular expressions of the store

    The route query of [search_trips] sends the pattern ["^" + text + "$"]
    with the option ["i"]. The engine below evaluates the patterns whose
    text is made of plain characters, [.] and a postfix [*]; a pattern with
    any other special character is outside the fragment and is not
    compiled. *)

Module Pcre.

Inductive atom : Type :=
| Lit (c : ascii)
| Dot.

Inductive item : Type :=
| One (a : atom)
| Star (a : atom).

Definition special (c : ascii) : bool :=
  existsb (Ascii.eqb c)
    ["\"; "^"; "$"; "|"; "("; ")"; "["; "]"; "{"; "}"; "+"; "?"]%char.

Definition newline : ascii := ascii_of_nat 10.

Fixpoint parse_body (cs : list ascii) : option (list item) :=
  match cs with
  | [] => Some []
  | c :: rest =>
      if special c || Ascii.eqb c "*" then None
      else
        let a := if Ascii.eqb c "." then Dot else Lit c in
        match rest with
        | "*"%char :: rest' => option_map (cons (Star a)) (parse_body rest')
        | _ => option_map (cons (One a)) (parse_body rest)
        end
  end.

(** The text between a leading [^] and a trailing [$]. *)
Definition anchored_body (cs : list ascii) : option (list ascii) :=
  match cs with
  | "^"%char :: rest =>
      match rev rest with
      | "$"%char :: body_rev => Some (rev body_rev)
      | _ => None
      end
  | _ => None
  end.

Definition atom_ok (fold_case : bool) (a : atom) (x : ascii) : bool :=
  match a with
  | Lit c =>
      if fold_case then Ascii.eqb (Py.lower_ascii c) (Py.lower_ascii x)
      else Ascii.eqb c x
  | Dot => negb (Ascii.eqb x newline)
  end.

(** The items match the whole of [s]. *)
Fixpoint matches (fold_case : bool) (items : list item)
  : list ascii -> bool :=
  match items with
  | [] => fun s => match s with [] => true | _ => false end
  | One a :: rest =>
      fun s =>
        match s with
        | x :: s' => atom_ok fold_case a x && matches fold_case rest s'
        | [] => false
        end
  | Star a :: rest =>
      fix star (s : list ascii) : bool :=
        matches fold_case rest s
        || match s with
           | x :: s' => atom_ok fold_case a x && star s'
           | [] => false
           end
  end.

Definition read_options (options : string) : option bool :=
  if String.eqb options "i" then Some true
  else if String.eqb options "" then Some false
  else None.

(** [$] holds at the end of the subject and before a newline that is its
    last character. *)
Definition matches_to_end (fold_case : bool) (items : list item)
    (s : list ascii) : bool :=
  matches fold_case items s
  || match rev s with
     | x :: before => Ascii.eqb x newline
                      && matches fold_case items (rev before)
     | [] => false
     end.

(** The compiled pattern, as a test on the subject string. *)
Definition compile (pattern options : string) : option (string -> bool) :=
  match read_options options,
        anchored_body (list_ascii_of_string pattern) with
  | Some fold_case, Some body =>
      match parse_body body with
      | Some items =>
          Some (fun subject =>
                  matches_to_end fold_case items
                    (list_ascii_of_string subject))
      | None => None
      end
  | _, _ => None
  end.

End Pcre.

(* ------------------------------------------------------------------ *)
(** ** The record kinds ([schemas.py])

    One record per collection. A stored document may lack any field but its
    identifier, which is why the handlers read with [.get]; every field is
    therefore optional here, with the type its schema gives it. *)

Module Schemas.

Import Bson.

(** Collection "busroute". *)
Record Busroute : Type := mkBusroute {
  route_id : oid;
  route_origin : option string;
  route_destination : option string;
  route_duration_minutes : option Z
}.

(** Collection "trip". *)
Record Trip : Type := mkTrip {
  trip_id : oid;
  trip_route_id : option string;
  trip_travel_date : option string;
  trip_departure_time : option string;
  trip_bus_company : option string;
  trip_price : option Q;
  trip_capacity : option Z
}.

(** Collection "booking". *)
Record Booking : Type := mkBooking {
  booking_id : oid;
  booking_trip_id : option string;
  booking_full_name : option string;
  booking_email : option string;
  booking_phone : option string;
  booking_seats : option Z;
  booking_status : option string
}.

(** [status: str = Field("confirmed", ...)]: the status a booking document
    has when it is read through its schema. *)
Definition Booking_status (b : Booking) : string :=
  Py.get (booking_status b) "confirmed".

(** A document: its [_id] and its string-valued fields by name. *)
Class Document (D : Type) : Type := {
  doc_id : D -> oid;
  get_str : D -> string -> option string
}.

#[export] Instance Busroute_doc : Document Busroute := {
  doc_id := route_id;
  get_str r k :=
    if String.eqb k "origin" then route_origin r
    else if String.eqb k "destination" then route_destination r
    else None
}.

#[export] Instance Trip_doc : Document Trip := {
  doc_id := trip_id;
  get_str t k :=
    if String.eqb k "route_id" then trip_route_id t
    else if String.eqb k "travel_date" then trip_travel_date t
    else if String.eqb k "departure_time" then trip_departure_time t
    else if String.eqb k "bus_company" then trip_bus_company t
    else None
}.

#[export] Instance Booking_doc : Document Booking := {
  doc_id := booking_id;
  get_str b k :=
    if String.eqb k "trip_id" then booking_trip_id b
    else if String.eqb k "full_name" then booking_full_name b
    else if String.eqb k "email" then booking_email b
    else if String.eqb k "phone" then booking_phone b
    else if String.eqb k "status" then booking_status b
    else None
}.

End Schemas.

(* ------------------------------------------------------------------ *)
(** ** The document store and the handlers' monad *)

Module Database.

Import Bson Schemas.

(** One condition of a query filter on a field: equality with a string,
    a regular expression with its options, membership in a list. *)
Inductive cond : Type :=
| Eq (v : string)
| Regex (pattern options : string)
| In_ (vs : list string).

(** A filter is the conjunction of its conditions. *)
Definition filter : Type := list (string * cond).

Record Store : Type := mkStore {
  busroutes : list Busroute;
  trips : list Trip;
  bookings : list Booking;
  next_oid : N
}.

(** A call the process makes to the store. *)
Inductive call : Type :=
| FindMany (collection : string) (flt : filter)
| FindOne (collection : string) (id : oid)
| InsertOne (collection : string).

(** The world a handler runs in: the global [db] ([None] when the
    database is not configured), the server's regular-expression engine,
    for each store call (numbered from 0 in the order they are made)
    whether the server is out of reach when it is made, and the calls
    made so far, oldest first. *)
Record World : Type := mkWorld {
  db : option Store;
  regex : string -> string -> option (string -> bool);
  outage : nat -> bool;
  calls : list call
}.

(** A handler: a computation on the world that returns or raises. *)
Definition M (A : Type) : Type := World -> (exn + A) * World.

Definition ret {A} (a : A) : M A := fun w => (inr a, w).

Definition bind {A B} (m : M A) (k : A -> M B) : M B :=
  fun w =>
    match m w with
    | (inl e, w') => (inl e, w')
    | (inr a, w') => k a w'
    end.

Definition raise {A} (e : exn) : M A := fun w => (inl e, w).

(** [try: m  except Exception: handler]. *)
Definition try_except {A} (m : M A) (handler : exn -> M A) : M A :=
  fun w =>
    match m w with
    | (inl e, w') => handler e w'
    | (inr a, w') => (inr a, w')
    end.

(** A pure step that may raise. *)
Definition lift {A} (r : exn + A) : M A := fun w => (r, w).

Declare Scope handler_scope.
Delimit Scope handler_scope with handler.
Notation "x <- m ;; k" := (bind m (fun x => k))
  (at level 61, m at next level, right associativity) : handler_scope.

(** [for x in xs: ys.append(f(x))]. *)
Fixpoint for_each {A B} (xs : list A) (f : A -> M B) : M (list B) :=
  match xs with
  | [] => ret []
  | x :: xs' =>
      (y <- f x ;; ys <- for_each xs' f ;; ret (y :: ys))%handler
  end.

(** A collection of the store: its name, how to read it, how to replace
    its documents. *)
Record Collection (D : Type) : Type := mkCollection {
  coll_name : string;
  coll_docs : Store -> list D;
  coll_put : list D -> Store -> Store
}.
Arguments coll_name {D}.
Arguments coll_docs {D}.
Arguments coll_put {D}.

Definition busroute : Collection Busroute :=
  mkCollection _ "busroute" busroutes
    (fun ds st => mkStore ds (trips st) (bookings st) (next_oid st)).

Definition trip : Collection Trip :=
  mkCollection _ "trip" trips
    (fun ds st => mkStore (busroutes st) ds (bookings st) (next_oid st)).

Definition booking : Collection Booking :=
  mkCollection _ "booking" bookings
    (fun ds st => mkStore (busroutes st) (trips st) ds (next_oid st)).

(** The test a condition puts on the value of its field; a regular
    expression the engine does not compile gives none. *)
Definition compile_cond (engine : string -> string -> option (string -> bool))
    (c : cond) : option (string -> bool) :=
  match c with
  | Eq v => Some (String.eqb v)
  | Regex pattern options => engine pattern options
  | In_ vs => Some (fun x => existsb (String.eqb x) vs)
  end.

Fixpoint compile_filter (engine : string -> string -> option (string -> bool))
    (flt : filter) : option (list (string * (string -> bool))) :=
  match flt with
  | [] => Some []
  | (k, c) :: rest =>
      match compile_cond engine c, compile_filter engine rest with
      | Some p, Some ps => Some ((k, p) :: ps)
      | _, _ => None
      end
  end.

(** A document passes a filter when each named field is present and
    passes its test. *)
Definition doc_matches {D} `{Document D}
    (tests : list (string * (string -> bool))) (d : D) : bool :=
  forallb (fun kp => match get_str d (fst kp) with
                     | Some v => snd kp v
                     | None => false
                     end) tests.

(** The world after the call [c] that left the store as [st]. *)
Definition after (w : World) (c : call) (st : Store) : World :=
  mkWorld (Some st) (regex w) (outage w) (calls w ++ [c]).

(** The server is within reach at every call. *)
Definition reachable (w : World) : Prop := forall n, outage w n = false.

(** Modelled from the spec: the store collaborator, whose client code
    (the module [database], with [db], [get_documents] and
    [create_document]) is not among the sources. A call reaches the
    server or fails as a whole; every call made is recorded. *)
Definition store_call {A} (c : call) (f : Store -> (exn + A) * Store)
  : M A :=
  fun w =>
    match db w with
    | None => (inl ServerUnavailable, w)
    | Some st =>
        if outage w (List.length (calls w))
        then (inl ServerUnavailable, after w c st)
        else
          let (r, st') := f st in
          (r, after w c st')
    end.

(** Modelled from the spec: [findMany(kind, filter)], the documents of
    the collection that pass the filter, in the order of the store. *)
Definition get_documents {D} `{Document D} (coll : Collection D)
    (flt : filter) : M (list D) :=
  fun w =>
    store_call (FindMany (coll_name coll) flt)
      (fun st =>
         match compile_filter (regex w) flt with
         | Some tests =>
             (inr (List.filter (doc_matches tests) (coll_docs coll st)), st)
         | None => (inl OperationFailure, st)
         end) w.

(** Modelled from the spec: [insert(kind, fields)], which stores the
    fields under a generated identifier and returns that identifier. *)
Definition create_document {D} (coll : Collection D) (fields : oid -> D)
  : M string :=
  store_call (InsertOne (coll_name coll))
    (fun st =>
       let id := Bson.of_counter (next_oid st) in
       let st' := coll_put coll (coll_docs coll st ++ [fields id]) st in
       (inr (Bson.str id),
        mkStore (busroutes st') (trips st') (bookings st')
          (N.succ (next_oid st)))).

(** [db[name].find_one({"_id": id})]: the first document of the collection
    with that identifier, if any. *)
Definition find_one {D} `{Document D} (coll : Collection D) (id : oid)
  : M (option D) :=
  store_call (FindOne (coll_name coll) id)
    (fun st =>
       (inr (List.find (fun d => String.eqb (doc_id d) id)
               (coll_docs coll st)), st)).

End Database.

(* ------------------------------------------------------------------ *)
(** ** The handlers ([main.py]) *)

Module Main.

Import Bson Schemas Database.
Local Open Scope handler_scope.

(** [serialize_doc]: identifiers become their text and dates their ISO
    form, every other value is copied. Documents here already hold
    identifiers and dates as that text. *)
Definition serialize_doc {D} (doc : D) : D := doc.

(** Request model of [POST /api/book]. *)
Record BookingRequest : Type := mkBookingRequest {
  req_trip_id : string;
  req_full_name : string;
  req_email : string;
  req_phone : string;
  req_seats : Z
}.

(** [seats: int = Field(..., ge=1, le=10)], the constraint the request
    model puts on the seat count before the handler runs. *)
Definition seats_in_range (payload : BookingRequest) : bool :=
  ((1 <=? req_seats payload) && (req_seats payload <=? 10))%Z.

(** [payload.model_dump()], as the fields of the document to insert: the
    five fields of the request model. *)
Definition model_dump (payload : BookingRequest) (id : oid) : Booking :=
  mkBooking id
    (Some (req_trip_id payload)) (Some (req_full_name payload))
    (Some (req_email payload)) (Some (req_phone payload))
    (Some (req_seats payload)) None.

(** [if db is None: raise HTTPException(500, "Database not configured")]. *)
Definition require_db : M unit :=
  fun w =>
    match db w with
    | None => (inl (HTTPException 500 "Database not configured"), w)
    | Some _ => (inr tt, w)
    end.

(** [sum(int(b.get("seats", 0)) for b in bookings)]; the field holds an
    integer when present, on which [int] is the identity. *)
Definition seats_booked (bs : list Booking) : Z :=
  Py.sum (map (fun b => Py.get (booking_seats b) 0) bs).

(** [max(0, int(trip.get("capacity", 0)) - seats_booked)]: the two lines
    that [search_trips] and [book_trip] both compute availability with. *)
Definition available (t : Trip) (bs : list Booking) : Z :=
  Z.max 0 (Py.get (trip_capacity t) 0 - seats_booked bs).

(** What a search result adds to a trip from its route. *)
Record RouteInfo : Type := mkRouteInfo {
  info_origin : option string;
  info_destination : option string;
  info_duration_minutes : option Z
}.

(** One enriched trip of a search result; [item_route] is absent when no
    matched route has the trip's [route_id]. *)
Record TripItem : Type := mkTripItem {
  item_trip : Trip;
  available_seats : Z;
  item_route : option RouteInfo
}.

Definition route_filter (origin destination : string) : filter :=
  [("origin", Regex ("^" ++ origin ++ "$") "i");
   ("destination", Regex ("^" ++ destination ++ "$") "i")].

Definition same_opt (a b : option string) : bool :=
  match a, b with
  | Some x, Some y => String.eqb x y
  | None, None => true
  | _, _ => false
  end.

(** The body of the loop of [search_trips] for one trip. *)
Definition enrich (routes : list Busroute) (t : Trip) : M TripItem :=
  let trip_id := Bson.str (trip_id t) in
  bs <- get_documents booking [("trip_id", Eq trip_id)] ;;
  let route :=
    List.find (fun r => same_opt (Some (Bson.str (route_id r)))
                          (trip_route_id t)) routes in
  ret (mkTripItem (serialize_doc t) (available t bs)
         (option_map (fun r => mkRouteInfo (route_origin r)
                                 (route_destination r)
                                 (route_duration_minutes r)) route)).

(** [GET /api/trips/search]; [travel_date] is the date in ISO form. *)
Definition search_trips (origin destination travel_date : string)
  : M (list TripItem) :=
  _ <- require_db ;;
  routes <- get_documents busroute (route_filter origin destination) ;;
  let route_ids := map (fun r => Bson.str (route_id r)) routes in
  match route_ids with
  | [] => ret []
  | _ :: _ =>
      ts <- get_documents trip
              [("route_id", In_ route_ids); ("travel_date", Eq travel_date)] ;;
      for_each ts (enrich routes)
  end.

(** The body of a successful [POST /api/book]. *)
Record BookingConfirmation : Type := mkBookingConfirmation {
  status : string;
  confirmed_booking_id : string
}.

(** [POST /api/book]. *)
Definition book_trip (payload : BookingRequest) : M BookingConfirmation :=
  _ <- require_db ;;
  trip_obj <- try_except
                (id <- lift (ObjectId (req_trip_id payload)) ;;
                 find_one trip id)
                (fun _ => ret None) ;;
  match trip_obj with
  | None => raise (HTTPException 404 "Trip not found")
  | Some t =>
      bs <- get_documents booking [("trip_id", Eq (req_trip_id payload))] ;;
      let available := available t bs in
      if (available <? req_seats payload)%Z
      then raise (HTTPException 400
                    ("Only " ++ Py.str available ++ " seats available"))
      else
        booking_id <- create_document booking (model_dump payload) ;;
        ret (mkBookingConfirmation "confirmed" booking_id)
  end.

(** [GET /api/bookings]. *)
Definition list_bookings (email : option string) : M (list Booking) :=
  let filt := if Py.truthy email
              then [("email", Eq (Py.get email ""))]
              else [] in
  docs <- get_documents booking filt ;;
  ret (map serialize_doc docs).

(** The bookings the store holds for a trip identifier: the answer to the
    query [{"trip_id": id}]. *)
Definition bookings_of (st : Store) (id : string) : list Booking :=
  List.filter (fun b => same_opt (booking_trip_id b) (Some id)) (bookings st).

(** The availability of a trip in a store. *)
Definition availability (st : Store) (t : Trip) : Z :=
  available t (bookings_of st (Bson.str (trip_id t))).

(** The store once the booking of [payload] has been inserted. *)
Definition with_booking (st : Store) (payload : BookingRequest) : Store :=
  mkStore (busroutes st) (trips st)
    (bookings st ++ [model_dump payload (Bson.of_counter (next_oid st))])
    (N.succ (next_oid st)).

(** Every trip of the store, under its own identifier, has no more seats
    booked than its capacity allows. *)
Definition within_capacity (st : Store) : Prop :=
  forall t, In t (trips st) -> canonical (trip_id t) ->
    seats_booked (bookings_of st (Bson.str (trip_id t)))
    <= Z.max 0 (Py.get (trip_capacity t) 0).

(** The worlds met by running [book_trip] on the requests in turn. *)
Fixpoint run_bookings (payloads : list BookingRequest) (w : World) : World :=
  match payloads with
  | [] => w
  | payload :: rest => run_bookings rest (snd (book_trip payload w))
  end.

End Main.

(* ------------------------------------------------------------------ *)
(** ** The availability calculator, in the words of its contract *)

Module Spec.

Import Schemas.

(** The seats of the supplied bookings, a missing seat count as zero. *)
Fixpoint seats_total (bs : list Booking) : Z :=
  match bs with
  | [] => 0
  | b :: rest =>
      match booking_seats b with
      | Some s => s + seats_total rest
      | None => seats_total rest
      end
  end.

(** [availableSeats]: capacity less the seats booked, floored at zero. *)
Definition availableSeats (capacity : Z) (bs : list Booking) : Z :=
  if (capacity - seats_total bs <? 0)%Z then 0
  else capacity - seats_total bs.

End Spec.

(* ------------------------------------------------------------------ *)
(** ** A sample store

    The scenario of the seeding code: the route New York - Boston of 240
    minutes with one trip of 40 seats, and no booking yet. *)

Module Sample.

Import Bson Schemas Database Main.

Definition route_ny_bos : Busroute :=
  mkBusroute "0000000000000000000000a1"
    (Some "New York") (Some "Boston") (Some 240).

Definition route_sf_la : Busroute :=
  mkBusroute "0000000000000000000000a2"
    (Some "San Francisco") (Some "Los Angeles") (Some 420).

Definition morning_trip : Trip :=
  mkTrip "65a1b2c3d4e5f60718293a4b" (Some "0000000000000000000000a1")
    (Some "2026-11-04") (Some "08:00") (Some "SwiftBus") None (Some 40).

(** A trip document stored without its capacity. *)
Definition unsized_trip : Trip :=
  mkTrip "65a1b2c3d4e5f60718293a4c" (Some "0000000000000000000000a1")
    (Some "2026-11-04") (Some "17:30") (Some "MetroLines") None None.

Definition store : Store :=
  mkStore [route_ny_bos; route_sf_la] [morning_trip; unsized_trip] [] 1.

(** The store is configured and within reach at every call. *)
Definition world : World :=
  mkWorld (Some store) Pcre.compile (fun _ => false) [].

(** The store is configured and out of reach at every call. *)
Definition world_down : World :=
  mkWorld (Some store) Pcre.compile (fun _ => true) [].

(** The test a pattern compiles to, with the option ["i"]. *)
Definition compiled (pattern : string) : string -> bool :=
  match Pcre.compile pattern "i" with
  | Some test => test
  | None => fun _ => false
  end.

(** The search result for a trip of the route New York - Boston. *)
Definition found (t : Trip) (seats : Z) : TripItem :=
  mkTripItem t seats
    (Some (mkRouteInfo (Some "New York") (Some "Boston") (Some 240))).

Definition request (trip_id : string) (seats : Z) : BookingRequest :=
  mkBookingRequest trip_id "Ann Lee" "ann@example.org" "555-0100" seats.

Definition booked (id : oid) (seats : option Z) : Booking :=
  mkBooking id (Some "65a1b2c3d4e5f60718293a4b") (Some "Ann Lee")
    (Some "ann@example.org") (Some "555-0100") seats None.

End Sample.

(* ------------------------------------------------------------------ *)
(** ** Seeding ([seed_sample_data]) *)

Module Seeding.

Import Bson Schemas Database Main.
Local Open Scope handler_scope.

(** [db[name].count_documents({})]: the number of documents of the
    collection; the call is recorded as the query with the empty filter
    whose answers it counts. *)
Definition count_documents {D} (coll : Collection D) : M nat :=
  store_call (FindMany (coll_name coll) [])
    (fun st => (inr (List.length (coll_docs coll st)), st)).

(** The body of an answer of [POST /api/seed]. *)
Record SeedResponse : Type := mkSeedResponse {
  seed_status : string;
  seed_message : string
}.

Definition route_ny_bos (id : oid) : Busroute :=
  mkBusroute id (Some "New York") (Some "Boston") (Some 240).

Definition route_sf_la (id : oid) : Busroute :=
  mkBusroute id (Some "San Francisco") (Some "Los Angeles") (Some 420).

(** [sample_trips]: two trips of the first route today, two of the second
    tomorrow; the dates are in ISO form. *)
Definition sample_trips (r1_id r2_id today tomorrow : string)
  : list (oid -> Trip) :=
  [ (fun id => mkTrip id (Some r1_id) (Some today) (Some "08:00")
                 (Some "SwiftBus") (Some (3999 # 100)) (Some 40));
    (fun id => mkTrip id (Some r1_id) (Some today) (Some "17:30")
                 (Some "MetroLines") (Some (4450 # 100)) (Some 50));
    (fun id => mkTrip id (Some r2_id) (Some tomorrow) (Some "07:15")
                 (Some "Pacific Coaches") (Some (5900 # 100)) (Some 45));
    (fun id => mkTrip id (Some r2_id) (Some tomorrow) (Some "18:45")
                 (Some "GoldenGate Bus") (Some (6250 # 100)) (Some 40)) ].

(** [POST /api/seed]; [today] is the date of the clock and [tomorrow] the
    day after, both in ISO form. *)
Definition seed_sample_data (today tomorrow : string) : M SeedResponse :=
  _ <- require_db ;;
  n <- count_documents trip ;;
  if (0 <? n)%nat
  then ret (mkSeedResponse "ok" "Trips already seeded")
  else
    r1_id <- create_document busroute route_ny_bos ;;
    r2_id <- create_document busroute route_sf_la ;;
    _ <- for_each (sample_trips r1_id r2_id today tomorrow)
           (create_document trip) ;;
    ret (mkSeedResponse "ok" "Seeded sample trips").

(** The store once [create_document] has inserted [fields] in [coll]. *)
Definition inserted {D} (coll : Collection D) (fields : oid -> D)
    (st : Store) : Store :=
  let st' := coll_put coll
               (coll_docs coll st ++ [fields (Bson.of_counter (next_oid st))])
               st in
  mkStore (busroutes st') (trips st') (bookings st') (N.succ (next_oid st)).

(** The store once the two routes and the four trips have been inserted. *)
Definition seeded (st : Store) (today tomorrow : string) : Store :=
  let r1_id := Bson.of_counter (next_oid st) in
  let r2_id := Bson.of_counter (N.succ (next_oid st)) in
  fold_left (fun acc fields => inserted trip fields acc)
    (sample_trips r1_id r2_id today tomorrow)
    (inserted busroute route_sf_la (inserted busroute route_ny_bos st)).

End Seeding.

(* ------------------------------------------------------------------ *)
(** ** The two halves of [book_trip] and the result of a search *)

Module Steps.

Import Bson Schemas Database Main.
Local Open Scope handler_scope.

(** [book_trip] up to its availability check. *)
Definition admission_check (payload : BookingRequest) : M unit :=
  _ <- require_db ;;
  trip_obj <- try_except
                (id <- lift (ObjectId (req_trip_id payload)) ;;
                 find_one trip id)
                (fun _ => ret None) ;;
  match trip_obj with
  | None => raise (HTTPException 404 "Trip not found")
  | Some t =>
      bs <- get_documents booking [("trip_id", Eq (req_trip_id payload))] ;;
      let available := available t bs in
      if (available <? req_seats payload)%Z
      then raise (HTTPException 400
                    ("Only " ++ Py.str available ++ " seats available"))
      else ret tt
  end.

(** [book_trip] from its insert on. *)
Definition admission_write (payload : BookingRequest)
  : M BookingConfirmation :=
  booking_id <- create_document booking (model_dump payload) ;;
  ret (mkBookingConfirmation "confirmed" booking_id).

(** Two requests served at once, the checks of both before the insert of
    either. *)
Definition interleaved (p1 p2 : BookingRequest)
  : M (BookingConfirmation * BookingConfirmation) :=
  _ <- admission_check p1 ;;
  _ <- admission_check p2 ;;
  c1 <- admission_write p1 ;;
  c2 <- admission_write p2 ;;
  ret (c1, c2).

(** The filter of the trip query of [search_trips], on one trip. *)
Definition on_route_and_date (routes : list Busroute) (travel_date : string)
    (t : Trip) : bool :=
  match trip_route_id t with
  | Some r => existsb (String.eqb r)
                (map (fun x => Bson.str (route_id x)) routes)
  | None => false
  end
  && same_opt (trip_travel_date t) (Some travel_date).

(** The item of a search result for a trip, read off the store. *)
Definition enriched (st : Store) (routes : list Busroute) (t : Trip)
  : TripItem :=
  mkTripItem t (availability st t)
    (option_map (fun r => mkRouteInfo (route_origin r) (route_destination r)
                            (route_duration_minutes r))
       (List.find (fun r => same_opt (Some (Bson.str (route_id r)))
                              (trip_route_id t)) routes)).

(** A handler that leaves the server as it is: its engine and its
    outages. *)
Definition keeps_server {A} (m : M A) : Prop :=
  forall w, regex (snd (m w)) = regex w /\ outage (snd (m w)) = outage w.

(** A handler that leaves the store as it is, whatever its outcome. *)
Definition reads_only {A} (m : M A) : Prop :=
  forall w, db (snd (m w)) = db w.

(** The bookings query of [search_trips] for a trip. *)
Definition bookings_query (t : Trip) : call :=
  FindMany "booking" [("trip_id", Eq (Bson.str (trip_id t)))].

End Steps.

(* ------------------------------------------------------------------ *)
(** ** References, and requests that respell an identifier *)

Module Cases.

Import Bson Schemas Database Main.

(** A booking references a trip when its [trip_id] reads, through
    [ObjectId], as the identifier of the trip: the way [book_trip] looks
    the trip of a request up. *)
Definition references (t : Trip) (b : Booking) : bool :=
  match booking_trip_id b with
  | Some text =>
      match ObjectId text with
      | inr id => String.eqb id (trip_id t)
      | inl _ => false
      end
  | None => false
  end.

(** The bookings of the store that reference a trip. *)
Definition bookings_referencing (st : Store) (t : Trip) : list Booking :=
  List.filter (references t) (bookings st).

(** A route has the origin and the destination of the pair, up to the case
    of their letters. *)
Definition pair_matches (origin destination : string) (r : Busroute)
  : bool :=
  match route_origin r, route_destination r with
  | Some o, Some d => Py.ci_eq origin o && Py.ci_eq destination d
  | _, _ => false
  end.

(** The identifier of the morning trip, as the store prints it and in
    upper case. *)
Definition own_id : string := "65a1b2c3d4e5f60718293a4b".
Definition upper_id : string := "65A1B2C3D4E5F60718293A4B".

(** Four requests of 10 seats under the trip's own identifier: the 40
    seats of the trip. *)
Definition fill : list BookingRequest :=
  [Sample.request own_id 10; Sample.request own_id 10;
   Sample.request own_id 10; Sample.request own_id 10].

(** The store once the four requests have been admitted. *)
Definition full_store : Store :=
  with_booking
    (with_booking
       (with_booking (with_booking Sample.store (Sample.request own_id 10))
          (Sample.request own_id 10))
       (Sample.request own_id 10))
    (Sample.request own_id 10).

End Cases.

(* ------------------------------------------------------------------ *)
(** * Properties *)

Import Bson Schemas Database Main.

Section Sums.

Lemma fold_add_from (xs : list Z) (a : Z) :
  fold_left Z.add xs a = a + fold_left Z.add xs 0.
Proof.
  revert a; induction xs as [|x xs IH]; intros a; simpl.
  - lia.
  - rewrite (IH (a + x)), (IH x). lia.
Qed.

Lemma sum_cons (x : Z) (xs : list Z) : Py.sum (x :: xs) = x + Py.sum xs.
Proof. unfold Py.sum; simpl. apply fold_add_from. Qed.

Lemma seats_booked_cons (b : Booking) (bs : list Booking) :
  seats_booked (b :: bs) = Py.get (booking_seats b) 0 + seats_booked bs.
Proof. unfold seats_booked; simpl map. apply sum_cons. Qed.

Lemma seats_booked_app (bs cs : list Booking) :
  seats_booked (bs ++ cs) = seats_booked bs + seats_booked cs.
Proof.
  induction bs as [|b bs IH]; simpl.
  - reflexivity.
  - rewrite !seats_booked_cons, IH. lia.
Qed.

Lemma seats_booked_total (bs : list Booking) :
  seats_booked bs = Spec.seats_total bs.
Proof.
  induction bs as [|b bs IH]; simpl.
  - reflexivity.
  - rewrite seats_booked_cons, IH. destruct (booking_seats b); simpl; lia.
Qed.

Lemma seats_booked_nonneg (bs : list Booking) :
  Forall (fun b => 0 <= Py.get (booking_seats b) 0) bs ->
  0 <= seats_booked bs.
Proof.
  induction 1 as [|b bs Hb _ IH].
  - reflexivity.
  - rewrite seats_booked_cons. lia.
Qed.

End Sums.

(** C2. For every trip that has a capacity and every list of bookings, the
    availability the handlers compute is the contract's
    [max(0, capacity - seats booked)], a booking without a seat count
    adding nothing, and it is never negative. *)
Theorem available_is_capacity_less_booked
    (t : Trip) (capacity : Z) (bs : list Booking) :
  trip_capacity t = Some capacity ->
  available t bs = Spec.availableSeats capacity bs
  /\ available t bs = Z.max 0 (capacity - Spec.seats_total bs)
  /\ 0 <= available t bs.
Proof.
  intros Hcap. unfold available, Spec.availableSeats.
  rewrite Hcap, seats_booked_total. simpl Py.get.
  destruct (Z.ltb_spec (capacity - Spec.seats_total bs) 0); lia.
Qed.

Lemma available_is_capacity_less_booked_witness :
  available Sample.morning_trip
    [Sample.booked "01" (Some 5); Sample.booked "02" None] = 35
  /\ 0 <= available Sample.morning_trip
            [Sample.booked "01" (Some 5); Sample.booked "02" None].
Proof.
  destruct (available_is_capacity_less_booked Sample.morning_trip 40
              [Sample.booked "01" (Some 5); Sample.booked "02" None]
              eq_refl) as (_ & Hmax & Hpos).
  split; [rewrite Hmax; reflexivity | exact Hpos].
Defined.

(* ------------------------------------------------------------------ *)
(** ** Store calls *)

Lemma store_call_up {A} (c : call) (f : Store -> (exn + A) * Store)
    (w : World) (st : Store) :
  db w = Some st -> outage w (List.length (calls w)) = false ->
  store_call c f w = (fst (f st), after w c (snd (f st))).
Proof.
  intros Hdb Hup. unfold store_call. rewrite Hdb, Hup.
  destruct (f st); reflexivity.
Qed.

Lemma store_call_down {A} (c : call) (f : Store -> (exn + A) * Store)
    (w : World) (st : Store) :
  db w = Some st -> outage w (List.length (calls w)) = true ->
  store_call c f w = (inl ServerUnavailable, after w c st).
Proof.
  intros Hdb Hdown. unfold store_call. rewrite Hdb, Hdown. reflexivity.
Qed.

Lemma get_documents_up {D} `{Document D} (coll : Collection D)
    (flt : filter) (tests : list (string * (string -> bool)))
    (w : World) (st : Store) :
  db w = Some st -> outage w (List.length (calls w)) = false ->
  compile_filter (regex w) flt = Some tests ->
  get_documents coll flt w
  = (inr (List.filter (doc_matches tests) (coll_docs coll st)),
     after w (FindMany (coll_name coll) flt) st).
Proof.
  intros Hdb Hup Htests. unfold get_documents.
  rewrite (store_call_up _ _ w st Hdb Hup), Htests. reflexivity.
Qed.

(** A query never changes the store, whatever its outcome. *)
Lemma get_documents_reads {D} `{Document D} (coll : Collection D)
    (flt : filter) (w : World) (st : Store) :
  db w = Some st ->
  db (snd (get_documents coll flt w)) = Some st
  /\ regex (snd (get_documents coll flt w)) = regex w
  /\ outage (snd (get_documents coll flt w)) = outage w.
Proof.
  intros Hdb. unfold get_documents, store_call. rewrite Hdb.
  destruct (outage w (List.length (calls w))); simpl.
  - auto.
  - destruct (compile_filter (regex w) flt); simpl; auto.
Qed.

(** What a query that returns has returned. *)
Lemma get_documents_returns {D} `{Document D} (coll : Collection D)
    (flt : filter) (w w' : World) (st : Store) (docs : list D) :
  db w = Some st ->
  get_documents coll flt w = (inr docs, w') ->
  exists tests,
    compile_filter (regex w) flt = Some tests
    /\ docs = List.filter (doc_matches tests) (coll_docs coll st)
    /\ w' = after w (FindMany (coll_name coll) flt) st.
Proof.
  intros Hdb. unfold get_documents, store_call. rewrite Hdb.
  destruct (outage w (List.length (calls w))); [discriminate|].
  destruct (compile_filter (regex w) flt) as [tests|]; [|discriminate].
  intros Heq. injection Heq as <- <-. exists tests. auto.
Qed.

(** The query [{"trip_id": id}] on the bookings. *)
Lemma trip_id_query (engine : string -> string -> option (string -> bool))
    (id : string) (bs : list Booking) :
  exists tests,
    compile_filter engine [("trip_id", Eq id)] = Some tests
    /\ List.filter (doc_matches tests) bs
       = List.filter (fun b => same_opt (booking_trip_id b) (Some id)) bs.
Proof.
  eexists; split; [reflexivity|].
  apply filter_ext. intros b. unfold doc_matches; simpl.
  destruct (booking_trip_id b) as [v|]; simpl; [|reflexivity].
  rewrite andb_true_r. apply String.eqb_sym.
Qed.

Lemma bookings_query_up (id : string) (w : World) (st : Store) :
  db w = Some st -> outage w (List.length (calls w)) = false ->
  get_documents booking [("trip_id", Eq id)] w
  = (inr (bookings_of st id),
     after w (FindMany "booking" [("trip_id", Eq id)]) st).
Proof.
  intros Hdb Hup.
  destruct (trip_id_query (regex w) id (bookings st)) as (tests & Hc & Hf).
  rewrite (get_documents_up booking _ tests w st Hdb Hup Hc).
  simpl coll_docs. rewrite Hf. reflexivity.
Qed.

(** In a collection without two documents of one identifier, [find_one]
    on the identifier of a document of the collection finds that one. *)
Lemma find_by_id {D} `{Document D} (d : D) (ds : list D) :
  NoDup (map doc_id ds) -> In d ds ->
  List.find (fun x => String.eqb (doc_id x) (doc_id d)) ds = Some d.
Proof.
  induction ds as [|x ds IH]; simpl; intros Hnd Hin; [contradiction|].
  inversion Hnd as [|? ? Hx Hnd']; subst.
  destruct Hin as [-> | Hin].
  - rewrite String.eqb_refl. reflexivity.
  - destruct (String.eqb_spec (doc_id x) (doc_id d)) as [Heq|_].
    + exfalso. apply Hx. rewrite Heq. apply in_map. exact Hin.
    + auto.
Qed.

Lemma find_none_iff {D} `{Document D} (id : oid) (ds : list D) :
  (forall d, In d ds -> doc_id d <> id) ->
  List.find (fun x => String.eqb (doc_id x) id) ds = None.
Proof.
  intros Hno. induction ds as [|x ds IH]; simpl; [reflexivity|].
  destruct (String.eqb_spec (doc_id x) id) as [Heq|_].
  - exfalso. apply (Hno x); simpl; auto.
  - apply IH. intros d Hd. apply Hno. simpl; auto.
Qed.

(* ------------------------------------------------------------------ *)
(** ** Booking admission *)

(** [book_trip] on a trip the lookup finds, the store within reach. *)
Lemma book_trip_found (payload : BookingRequest) (w : World) (st : Store)
    (id : oid) (t : Trip) :
  db w = Some st -> reachable w ->
  ObjectId (req_trip_id payload) = inr id ->
  List.find (fun x => String.eqb (doc_id x) id) (trips st) = Some t ->
  book_trip payload w
  = let p := req_trip_id payload in
    let a := available t (bookings_of st p) in
    let w2 := after (after w (FindOne "trip" id) st)
                (FindMany "booking" [("trip_id", Eq p)]) st in
    if (a <? req_seats payload)%Z
    then (inl (HTTPException 400 ("Only " ++ Py.str a ++ " seats available")),
          w2)
    else (inr (mkBookingConfirmation "confirmed"
                 (Bson.of_counter (next_oid st))),
          after w2 (InsertOne "booking") (with_booking st payload)).
Proof.
  intros Hdb Hup Hid Hfind.
  unfold book_trip, bind, require_db, try_except, lift.
  rewrite Hdb, Hid. unfold find_one.
  rewrite (store_call_up _ _ w st Hdb (Hup _)). simpl fst; simpl snd.
  simpl coll_docs; simpl coll_name. simpl in Hfind. rewrite Hfind.
  cbv beta iota.
  rewrite (bookings_query_up (req_trip_id payload)
             (after w (FindOne "trip" id) st) st eq_refl (Hup _)).
  cbv beta iota zeta. unfold raise, ret.
  destruct (available t (bookings_of st (req_trip_id payload))
            <? req_seats payload)%Z.
  - reflexivity.
  - unfold create_document.
    rewrite (store_call_up _ _
               (after (after w (FindOne "trip" id) st)
                  (FindMany "booking" [("trip_id", Eq (req_trip_id payload))])
                  st) st eq_refl (Hup _)).
    reflexivity.
Qed.

(** Whatever the reach of the server, [book_trip] leaves the store as it
    was or adds the one booking it admitted: for a trip its lookup found,
    with no more seats than the availability it computed. *)
Lemma book_trip_store (payload : BookingRequest) (w : World) (st : Store) :
  db w = Some st ->
  db (snd (book_trip payload w)) = Some st
  \/ exists id t,
       ObjectId (req_trip_id payload) = inr id
       /\ List.find (fun x => String.eqb (trip_id x) id) (trips st) = Some t
       /\ req_seats payload
          <= available t (bookings_of st (req_trip_id payload))
       /\ db (snd (book_trip payload w)) = Some (with_booking st payload).
Proof.
  intros Hdb.
  unfold book_trip, bind, require_db, try_except, lift. rewrite Hdb.
  destruct (ObjectId (req_trip_id payload)) as [e|id] eqn:Hid;
    [left; exact Hdb|].
  unfold find_one, store_call. rewrite Hdb.
  destruct (outage w (List.length (calls w))); [left; reflexivity|].
  cbv beta iota. change (coll_docs trip st) with (trips st).
  change (@doc_id Trip Trip_doc) with trip_id.
  destruct (List.find (fun d => String.eqb (trip_id d) id) (trips st))
    as [t|] eqn:Hfind; [|left; reflexivity].
  cbv beta iota.
  destruct (outage (after w (FindOne (coll_name trip) id) st)
              (List.length (calls (after w (FindOne (coll_name trip) id) st))))
    eqn:Hout.
  - left. unfold get_documents, store_call. rewrite Hout. reflexivity.
  - erewrite bookings_query_up; [| reflexivity | exact Hout].
    cbv beta iota.
    destruct (Z.ltb_spec (available t (bookings_of st (req_trip_id payload)))
                (req_seats payload)) as [_|Hle]; [left; reflexivity|].
    cbv beta iota. unfold create_document.
    match goal with
    | |- context [store_call _ _ ?w2] =>
        destruct (outage w2 (List.length (calls w2))) eqn:Hout2
    end.
    + left. unfold store_call. rewrite Hout2. reflexivity.
    + right. exists id, t. unfold store_call. rewrite Hout2.
      repeat split; auto.
Qed.

(** The lookup of [book_trip] finds no trip: the request is refused as
    not found and the store is left as it was, whatever the reach of the
    server. *)
Lemma book_trip_not_found (payload : BookingRequest) (w : World) (st : Store) :
  db w = Some st ->
  (forall id,
      ObjectId (req_trip_id payload) = inr id ->
      List.find (fun x => String.eqb (trip_id x) id) (trips st) = None) ->
  fst (book_trip payload w) = inl (HTTPException 404 "Trip not found")
  /\ db (snd (book_trip payload w)) = Some st.
Proof.
  intros Hdb Hnone.
  unfold book_trip, bind, require_db, try_except, lift. rewrite Hdb.
  destruct (ObjectId (req_trip_id payload)) as [e|id] eqn:Hid.
  - split; [reflexivity | exact Hdb].
  - unfold find_one, store_call. rewrite Hdb.
    destruct (outage w (List.length (calls w))); [split; reflexivity|].
    cbv beta iota. change (coll_docs trip st) with (trips st).
    change (@doc_id Trip Trip_doc) with trip_id.
    rewrite (Hnone id eq_refl). split; reflexivity.
Qed.

Lemma bookings_of_with_booking (st : Store) (payload : BookingRequest)
    (id : string) :
  bookings_of (with_booking st payload) id
  = bookings_of st id
    ++ (if String.eqb (req_trip_id payload) id
        then [model_dump payload (Bson.of_counter (next_oid st))]
        else []).
Proof.
  unfold bookings_of, with_booking; simpl bookings.
  rewrite filter_app. reflexivity.
Qed.

Lemma seats_booked_with_booking (st : Store) (payload : BookingRequest)
    (id : string) :
  seats_booked (bookings_of (with_booking st payload) id)
  = seats_booked (bookings_of st id)
    + (if String.eqb (req_trip_id payload) id then req_seats payload else 0).
Proof.
  rewrite bookings_of_with_booking, seats_booked_app.
  destruct (String.eqb (req_trip_id payload) id); reflexivity.
Qed.

(** One [book_trip] keeps the trips and the capacity invariant. *)
Lemma book_trip_keeps_capacity (payload : BookingRequest) (w : World)
    (st : Store) :
  db w = Some st -> NoDup (map trip_id (trips st)) -> within_capacity st ->
  exists st',
    db (snd (book_trip payload w)) = Some st'
    /\ trips st' = trips st /\ within_capacity st'.
Proof.
  intros Hdb Hnd Hinv.
  destruct (book_trip_store payload w st Hdb)
    as [Hsame | (id & t0 & Hid & Hfind & Hle & Hnew)].
  - exists st. auto.
  - exists (with_booking st payload). repeat split; auto.
    intros t Ht Hcan. simpl trips in Ht. simpl trip_capacity.
    rewrite seats_booked_with_booking.
    specialize (Hinv t Ht Hcan).
    destruct (String.eqb_spec (req_trip_id payload) (Bson.str (trip_id t)))
      as [Hp|_]; [|lia].
    assert (t0 = t) as ->.
    { unfold canonical in Hcan. unfold Bson.str in Hp.
      rewrite Hp, Hcan in Hid. injection Hid as <-.
      pose proof (find_by_id t (trips st) Hnd Ht) as Hf. simpl in Hf.
      rewrite Hf in Hfind. injection Hfind as <-. reflexivity. }
    rewrite Hp in Hle. unfold available in Hle. lia.
Qed.

Lemma run_bookings_keeps_capacity (payloads : list BookingRequest) :
  forall (w : World) (st : Store),
    db w = Some st -> NoDup (map trip_id (trips st)) -> within_capacity st ->
    exists st',
      db (run_bookings payloads w) = Some st'
      /\ trips st' = trips st /\ within_capacity st'.
Proof.
  induction payloads as [|payload rest IH]; intros w st Hdb Hnd Hinv; simpl.
  - exists st. auto.
  - destruct (book_trip_keeps_capacity payload w st Hdb Hnd Hinv)
      as (st1 & Hdb1 & Htrips1 & Hinv1).
    destruct (IH _ st1 Hdb1) as (st2 & Hdb2 & Htrips2 & Hinv2); auto.
    + rewrite Htrips1. exact Hnd.
    + exists st2. rewrite Htrips2, Htrips1 in *. auto.
Qed.

(** Counted under the text of the trip's own identifier, the bookings stay
    within capacity: from a store without bookings, after any sequence of
    [book_trip] requests run one after the other (each may succeed, be
    refused, or fail on the store), every trip of the store has, among the
    bookings whose [trip_id] is the text of its identifier, at most as many
    seats as its capacity. *)
Theorem bookings_never_exceed_capacity
    (w0 : World) (st0 st : Store) (payloads : list BookingRequest)
    (t : Trip) (capacity : Z) :
  db w0 = Some st0 -> bookings st0 = [] ->
  NoDup (map trip_id (trips st0)) ->
  db (run_bookings payloads w0) = Some st ->
  In t (trips st) -> canonical (trip_id t) ->
  trip_capacity t = Some capacity -> 0 <= capacity ->
  seats_booked (bookings_of st (Bson.str (trip_id t))) <= capacity.
Proof.
  intros Hdb Hempty Hnd Hrun Ht Hcan Hcap Hpos.
  assert (within_capacity st0) as Hinv0.
  { intros t' _ _. unfold bookings_of. rewrite Hempty.
    apply Z.le_max_l. }
  destruct (run_bookings_keeps_capacity payloads w0 st0 Hdb Hnd Hinv0)
    as (st' & Hdb' & _ & Hinv').
  rewrite Hrun in Hdb'. injection Hdb' as <-.
  specialize (Hinv' t Ht Hcan). rewrite Hcap in Hinv'. simpl in Hinv'. lia.
Qed.

Lemma bookings_never_exceed_capacity_witness :
  seats_booked
    (bookings_of
       (with_booking (with_booking Sample.store
                        (Sample.request "65a1b2c3d4e5f60718293a4b" 5))
          (Sample.request "65a1b2c3d4e5f60718293a4b" 35))
       "65a1b2c3d4e5f60718293a4b") <= 40.
Proof.
  apply (bookings_never_exceed_capacity Sample.world Sample.store _
           [Sample.request "65a1b2c3d4e5f60718293a4b" 5;
            Sample.request "65a1b2c3d4e5f60718293a4b" 36;
            Sample.request "65a1b2c3d4e5f60718293a4b" 35]
           Sample.morning_trip 40).
  - reflexivity.
  - reflexivity.
  - simpl. repeat constructor; simpl; intuition discriminate.
  - vm_compute. reflexivity.
  - simpl. auto.
  - reflexivity.
  - reflexivity.
  - lia.
Defined.

(** The decimal numeral [str] prints reads back as the same integer. *)
Lemma str_reads_back (n : Z) : Py.int_of_str (Py.str n) = Some n.
Proof.
  unfold Py.int_of_str, Py.str.
  rewrite NilZero.isi.
  - simpl. rewrite DecimalZ.of_to. reflexivity.
  - destruct n as [|p|p]; simpl; try discriminate.
    intros [= Hnil]. exact (DecimalPos.Unsigned.to_uint_nonnil p Hnil).
  - destruct n as [|p|p]; simpl; try discriminate.
    intros [= Hnil]. exact (DecimalPos.Unsigned.to_uint_nonnil p Hnil).
Qed.

Lemma canonical_lookup (st : Store) (t : Trip) :
  NoDup (map trip_id (trips st)) -> In t (trips st) ->
  canonical (trip_id t) ->
  ObjectId (Bson.str (trip_id t)) = inr (trip_id t)
  /\ List.find (fun x => String.eqb (doc_id x) (trip_id t)) (trips st) = Some t.
Proof.
  intros Hnd Ht Hcan. split; [exact Hcan|].
  exact (find_by_id t (trips st) Hnd Ht).
Qed.

(** C3, as amended. A request for a trip of the store that carries the
    trip's identifier as the store prints it, with a seat count within
    1..10 and within the trip's availability, is admitted: the answer has
    status "confirmed" and the identifier of the new booking, the store
    holds exactly one booking more, made of the five fields of the request
    and without a status field, and the trip's availability has dropped by
    exactly the seat count. *)
Theorem booking_under_own_identifier_succeeds
    (payload : BookingRequest) (w : World) (st : Store) (t : Trip) :
  db w = Some st -> reachable w ->
  NoDup (map trip_id (trips st)) -> In t (trips st) ->
  canonical (trip_id t) ->
  req_trip_id payload = Bson.str (trip_id t) ->
  seats_in_range payload = true ->
  req_seats payload <= availability st t ->
  exists b st',
    fst (book_trip payload w)
    = inr (mkBookingConfirmation "confirmed" (Bson.str (booking_id b)))
    /\ db (snd (book_trip payload w)) = Some st'
    /\ bookings st' = bookings st ++ [b]
    /\ trips st' = trips st /\ busroutes st' = busroutes st
    /\ b = model_dump payload (booking_id b)
    /\ booking_status b = None
    /\ availability st' t = availability st t - req_seats payload.
Proof.
  intros Hdb Hup Hnd Ht Hcan Hp Hrange Hle.
  destruct (canonical_lookup st t Hnd Ht Hcan) as (Hid & Hfind).
  rewrite <- Hp in Hid.
  rewrite (book_trip_found payload w st (trip_id t) t Hdb Hup Hid Hfind).
  cbv zeta. unfold availability in *. rewrite <- Hp in *.
  destruct (Z.ltb_spec (available t (bookings_of st (req_trip_id payload)))
              (req_seats payload)) as [Hlt|_]; [lia|].
  exists (model_dump payload (Bson.of_counter (next_oid st))),
         (with_booking st payload).
  repeat split.
  unfold available in *. rewrite seats_booked_with_booking.
  rewrite String.eqb_refl.
  unfold seats_in_range in Hrange.
  apply andb_prop in Hrange. destruct Hrange as (Hlo%Z.leb_le & _).
  simpl trip_capacity. lia.
Qed.

Lemma booking_under_own_identifier_succeeds_witness :
  exists b st',
    fst (book_trip (Sample.request "65a1b2c3d4e5f60718293a4b" 5) Sample.world)
    = inr (mkBookingConfirmation "confirmed" (Bson.str (booking_id b)))
    /\ db (snd (book_trip (Sample.request "65a1b2c3d4e5f60718293a4b" 5)
                  Sample.world)) = Some st'
    /\ bookings st' = bookings Sample.store ++ [b]
    /\ trips st' = trips Sample.store
    /\ busroutes st' = busroutes Sample.store
    /\ b = model_dump (Sample.request "65a1b2c3d4e5f60718293a4b" 5)
             (booking_id b)
    /\ booking_status b = None
    /\ availability st' Sample.morning_trip
       = availability Sample.store Sample.morning_trip - 5.
Proof.
  apply (booking_under_own_identifier_succeeds
           (Sample.request "65a1b2c3d4e5f60718293a4b" 5)
           Sample.world Sample.store Sample.morning_trip).
  - reflexivity.
  - intros n. reflexivity.
  - simpl. repeat constructor; simpl; intuition discriminate.
  - simpl. auto.
  - reflexivity.
  - reflexivity.
  - reflexivity.
  - vm_compute. discriminate.
Defined.

(** A request for a trip of the store that carries the trip's identifier
    as the store prints it, for more seats than the trip's availability, is
    refused with status 400 and the message "Only <a> seats available", where <a> is the decimal
    numeral of that availability, and the store is left as it was. *)
Theorem booking_beyond_availability_refused
    (payload : BookingRequest) (w : World) (st : Store) (t : Trip) :
  db w = Some st -> reachable w ->
  NoDup (map trip_id (trips st)) -> In t (trips st) ->
  canonical (trip_id t) ->
  req_trip_id payload = Bson.str (trip_id t) ->
  availability st t < req_seats payload ->
  fst (book_trip payload w)
  = inl (HTTPException 400
           ("Only " ++ Py.str (availability st t) ++ " seats available"))
  /\ Py.int_of_str (Py.str (availability st t)) = Some (availability st t)
  /\ db (snd (book_trip payload w)) = Some st.
Proof.
  intros Hdb Hup Hnd Ht Hcan Hp Hgt.
  destruct (canonical_lookup st t Hnd Ht Hcan) as (Hid & Hfind).
  rewrite <- Hp in Hid.
  rewrite (book_trip_found payload w st (trip_id t) t Hdb Hup Hid Hfind).
  cbv zeta. unfold availability in *. rewrite <- Hp in *.
  destruct (Z.ltb_spec (available t (bookings_of st (req_trip_id payload)))
              (req_seats payload)) as [_|Hle]; [|lia].
  repeat split. apply str_reads_back.
Qed.

Lemma booking_beyond_availability_refused_witness :
  fst (book_trip (Sample.request "65a1b2c3d4e5f60718293a4b" 41) Sample.world)
  = inl (HTTPException 400 "Only 40 seats available")
  /\ db (snd (book_trip (Sample.request "65a1b2c3d4e5f60718293a4b" 41)
                Sample.world)) = Some Sample.store.
Proof.
  destruct (booking_beyond_availability_refused
              (Sample.request "65a1b2c3d4e5f60718293a4b" 41)
              Sample.world Sample.store Sample.morning_trip)
    as (Hmsg & _ & Hsame).
  - reflexivity.
  - intros n. reflexivity.
  - simpl. repeat constructor; simpl; intuition discriminate.
  - simpl. auto.
  - reflexivity.
  - reflexivity.
  - vm_compute. reflexivity.
  - split; [exact Hmsg | exact Hsame].
Defined.

(** C5. A request whose trip identifier is that of no trip of the store,
    be it well formed or not, is refused with status 404 (the [InvalidId] of
    a malformed identifier does not escape) and the store is left as it
    was. *)
Theorem booking_unknown_trip_not_found
    (payload : BookingRequest) (w : World) (st : Store) :
  db w = Some st ->
  (forall t, In t (trips st) ->
             ObjectId (req_trip_id payload) <> inr (trip_id t)) ->
  fst (book_trip payload w) = inl (HTTPException 404 "Trip not found")
  /\ db (snd (book_trip payload w)) = Some st.
Proof.
  intros Hdb Hnone. apply book_trip_not_found; [exact Hdb|].
  intros id Hid.
  pose proof (find_none_iff (D := Trip) id (trips st)) as Hfind.
  simpl in Hfind. apply Hfind.
  intros t Ht Heq. apply (Hnone t Ht). rewrite Heq. exact Hid.
Qed.

Lemma booking_unknown_trip_not_found_witness :
  fst (book_trip (Sample.request "not-an-identifier" 2) Sample.world)
  = inl (HTTPException 404 "Trip not found")
  /\ db (snd (book_trip (Sample.request "not-an-identifier" 2) Sample.world))
     = Some Sample.store.
Proof.
  apply (booking_unknown_trip_not_found
           (Sample.request "not-an-identifier" 2) Sample.world Sample.store).
  - reflexivity.
  - intros t _. vm_compute. discriminate.
Defined.

(* ------------------------------------------------------------------ *)
(** ** Trip search *)

Lemma filter_none {A} (f : A -> bool) (xs : list A) :
  (forall x, In x xs -> f x = false) -> List.filter f xs = [].
Proof.
  induction xs as [|x xs IH]; simpl; intros Hno; [reflexivity|].
  rewrite (Hno x) by auto. apply IH. intros y Hy. apply Hno. auto.
Qed.

(** The short cut of [search_trips]: when the route query answers and no
    route of the store passes its filter, [search_trips] returns the empty
    list, and the one call it has made to the store is that route query:
    neither the trips nor the bookings are queried. *)
Theorem search_without_route_is_empty
    (origin destination travel_date : string) (w : World) (st : Store)
    (tests : list (string * (string -> bool))) :
  db w = Some st -> outage w (List.length (calls w)) = false ->
  compile_filter (regex w) (route_filter origin destination) = Some tests ->
  (forall r, In r (busroutes st) -> doc_matches tests r = false) ->
  fst (search_trips origin destination travel_date w) = inr []
  /\ calls (snd (search_trips origin destination travel_date w))
     = calls w ++ [FindMany "busroute" (route_filter origin destination)]
  /\ db (snd (search_trips origin destination travel_date w)) = Some st.
Proof.
  intros Hdb Hup Htests Hno.
  unfold search_trips, bind, require_db. rewrite Hdb.
  rewrite (get_documents_up busroute _ tests w st Hdb Hup Htests).
  change (coll_docs busroute st) with (busroutes st).
  rewrite (filter_none (doc_matches tests) (busroutes st) Hno). simpl.
  repeat split.
Qed.

Lemma search_without_route_is_empty_witness :
  fst (search_trips "Boston" "New York" "2026-11-04" Sample.world) = inr []
  /\ calls (snd (search_trips "Boston" "New York" "2026-11-04" Sample.world))
     = [FindMany "busroute" (route_filter "Boston" "New York")]
  /\ db (snd (search_trips "Boston" "New York" "2026-11-04" Sample.world))
     = Some Sample.store.
Proof.
  apply (search_without_route_is_empty "Boston" "New York" "2026-11-04"
           Sample.world Sample.store
           [("origin", Sample.compiled "^Boston$");
            ("destination", Sample.compiled "^New York$")]).
  - reflexivity.
  - reflexivity.
  - vm_compute. reflexivity.
  - intros r [<- | [<- | []]]; vm_compute; reflexivity.
Defined.

(* ------------------------------------------------------------------ *)
(** ** Listing bookings *)

Lemma email_query (engine : string -> string -> option (string -> bool))
    (email : string) (bs : list Booking) :
  exists tests,
    compile_filter engine [("email", Eq email)] = Some tests
    /\ List.filter (doc_matches tests) bs
       = List.filter (fun b => same_opt (booking_email b) (Some email)) bs.
Proof.
  eexists; split; [reflexivity|].
  apply filter_ext. intros b. unfold doc_matches; simpl.
  destruct (booking_email b) as [v|]; simpl; [|reflexivity].
  rewrite andb_true_r. apply String.eqb_sym.
Qed.

Lemma filter_all {A} (xs : list A) : List.filter (fun _ => true) xs = xs.
Proof.
  induction xs as [|x xs IH]; simpl; [reflexivity | now rewrite IH].
Qed.

(** C9. [list_bookings] with the empty string for email is [list_bookings]
    without email: the same query, the same answer, the same world after.
    Both return every booking of the store, and a non-empty email returns
    the bookings whose email field is exactly that string. *)
Theorem list_bookings_empty_email_is_no_email
    (email : string) (w : World) (st : Store) :
  db w = Some st -> outage w (List.length (calls w)) = false ->
  email <> "" ->
  list_bookings (Some "") w = list_bookings None w
  /\ fst (list_bookings None w) = inr (bookings st)
  /\ fst (list_bookings (Some email) w)
     = inr (List.filter (fun b => same_opt (booking_email b) (Some email))
              (bookings st)).
Proof.
  intros Hdb Hup Hemail. split; [reflexivity|]. split.
  - unfold list_bookings, bind. simpl Py.truthy. cbv iota.
    rewrite (get_documents_up booking [] [] w st Hdb Hup eq_refl).
    simpl coll_docs. unfold doc_matches; simpl forallb.
    rewrite filter_all. unfold serialize_doc. simpl. rewrite map_id.
    reflexivity.
  - unfold list_bookings, bind.
    destruct email as [|c email']; [contradiction Hemail; reflexivity|].
    simpl Py.truthy. cbv iota. simpl Py.get.
    destruct (email_query (regex w) (String c email') (bookings st))
      as (tests & Hc & Hf).
    rewrite (get_documents_up booking _ tests w st Hdb Hup Hc).
    simpl coll_docs. rewrite Hf. unfold serialize_doc. simpl.
    rewrite map_id. reflexivity.
Qed.

Lemma list_bookings_empty_email_is_no_email_witness :
  list_bookings (Some "")
    (run_bookings [Sample.request "65a1b2c3d4e5f60718293a4b" 5] Sample.world)
  = list_bookings None
      (run_bookings [Sample.request "65a1b2c3d4e5f60718293a4b" 5] Sample.world)
  /\ fst (list_bookings None
            (run_bookings [Sample.request "65a1b2c3d4e5f60718293a4b" 5]
               Sample.world))
     = inr [Sample.booked "000000000000000000000001" (Some 5)]
  /\ fst (list_bookings (Some "bob@example.org")
            (run_bookings [Sample.request "65a1b2c3d4e5f60718293a4b" 5]
               Sample.world))
     = inr [].
Proof.
  apply (list_bookings_empty_email_is_no_email "bob@example.org"
           (run_bookings [Sample.request "65a1b2c3d4e5f60718293a4b" 5]
              Sample.world)
           (with_booking Sample.store
              (Sample.request "65a1b2c3d4e5f60718293a4b" 5))).
  - reflexivity.
  - reflexivity.
  - discriminate.
Defined.

(* ------------------------------------------------------------------ *)
(** ** Trips stored without a capacity *)

(** The item [enrich] returns for a trip carries the trip and its
    availability in the store, and the store is as it was. *)
Lemma enrich_returns (routes : list Busroute) (t : Trip) (w w' : World)
    (st : Store) (item : TripItem) :
  db w = Some st ->
  enrich routes t w = (inr item, w') ->
  db w' = Some st
  /\ item_trip item = t /\ available_seats item = availability st t.
Proof.
  intros Hdb. unfold enrich, bind.
  destruct (get_documents booking [("trip_id", Eq (Bson.str (trip_id t)))] w)
    as [[e|bs] w1] eqn:Hq; [discriminate|].
  destruct (get_documents_returns booking _ w w1 st bs Hdb Hq)
    as (tests & Hc & Hbs & Hw1).
  destruct (trip_id_query (regex w) (Bson.str (trip_id t)) (bookings st))
    as (tests' & Hc' & Hf).
  rewrite Hc in Hc'. injection Hc' as <-.
  simpl coll_docs in Hbs. rewrite Hf in Hbs.
  unfold ret. intros Heq. injection Heq as <- <-.
  subst w1 bs. repeat split.
Qed.

Lemma for_each_enrich_returns (routes : list Busroute) (ts : list Trip) :
  forall (w w' : World) (st : Store) (items : list TripItem),
    db w = Some st ->
    for_each ts (enrich routes) w = (inr items, w') ->
    db w' = Some st
    /\ Forall (fun item => available_seats item
                           = availability st (item_trip item)) items.
Proof.
  induction ts as [|t ts IH]; intros w w' st items Hdb; simpl.
  - unfold ret. intros Heq. injection Heq as <- <-. auto.
  - unfold bind at 1.
    destruct (enrich routes t w) as [[e|item] w1] eqn:He; [discriminate|].
    destruct (enrich_returns routes t w w1 st item Hdb He)
      as (Hdb1 & Htrip & Havail).
    unfold bind at 1.
    destruct (for_each ts (enrich routes) w1) as [[e|rest] w2] eqn:Hrest;
      [discriminate|].
    destruct (IH w1 w2 st rest Hdb1 Hrest) as (Hdb2 & Hall).
    unfold ret. intros Heq. injection Heq as <- <-.
    split; [exact Hdb2|]. constructor; [|exact Hall].
    rewrite Htrip. exact Havail.
Qed.

(** Every item of a search result reports the availability of its trip. *)
Lemma search_trips_reports_availability
    (origin destination travel_date : string) (w : World) (st : Store)
    (items : list TripItem) :
  db w = Some st ->
  fst (search_trips origin destination travel_date w) = inr items ->
  Forall (fun item => available_seats item
                      = availability st (item_trip item)) items.
Proof.
  intros Hdb. unfold search_trips, bind, require_db. rewrite Hdb.
  destruct (get_documents busroute (route_filter origin destination) w)
    as [[e|routes] w1] eqn:Hr; [discriminate|].
  destruct (get_documents_returns busroute _ w w1 st routes Hdb Hr)
    as (_ & _ & _ & Hw1).
  destruct routes as [|r routes]; cbn [map]; cbv beta iota.
  - unfold ret; simpl. intros [= <-]. constructor.
  - match goal with
    | |- context [get_documents trip ?flt w1] =>
        destruct (get_documents trip flt w1) as [[e|ts] w2] eqn:Ht;
          [discriminate|];
        destruct (get_documents_returns trip flt w1 w2 st ts)
          as (_ & _ & _ & Hw2);
          [subst w1; reflexivity | exact Ht |]
    end.
    destruct (for_each ts (enrich (r :: routes)) w2) as [res w3] eqn:Hloop.
    simpl. intros ->.
    apply (for_each_enrich_returns (r :: routes) ts w2 w3 st items);
      [subst w2; reflexivity | exact Hloop].
Qed.

Lemma availability_without_capacity (t : Trip) (bs : list Booking) :
  trip_capacity t = None ->
  Forall (fun b => 0 <= Py.get (booking_seats b) 0) bs ->
  available t bs = 0.
Proof.
  intros Hcap Hbs. unfold available. rewrite Hcap. simpl Py.get.
  pose proof (seats_booked_nonneg bs Hbs). lia.
Qed.

Lemma bookings_of_nonneg (st : Store) (id : string) :
  Forall (fun b => 0 <= Py.get (booking_seats b) 0) (bookings st) ->
  Forall (fun b => 0 <= Py.get (booking_seats b) 0) (bookings_of st id).
Proof.
  intros Hall. apply Forall_forall. intros b Hb.
  apply filter_In in Hb. destruct Hb as (Hb & _).
  rewrite Forall_forall in Hall. exact (Hall b Hb).
Qed.

(** C10. For a trip stored without a capacity, in a store whose bookings
    have no negative seat count: its availability is 0, every search result
    that carries the trip reports [available_seats] 0, and a request for it
    with at least one seat is refused with status 400, "Only 0 seats
    available", the store left as it was. *)
Theorem trip_without_capacity_has_no_seats
    (payload : BookingRequest) (w : World) (st : Store) (t : Trip) :
  db w = Some st -> reachable w ->
  Forall (fun b => 0 <= Py.get (booking_seats b) 0) (bookings st) ->
  NoDup (map trip_id (trips st)) -> In t (trips st) ->
  trip_capacity t = None ->
  ObjectId (req_trip_id payload) = inr (trip_id t) ->
  1 <= req_seats payload ->
  availability st t = 0
  /\ (forall origin destination travel_date items item,
        fst (search_trips origin destination travel_date w) = inr items ->
        In item items -> item_trip item = t -> available_seats item = 0)
  /\ fst (book_trip payload w)
     = inl (HTTPException 400 "Only 0 seats available")
  /\ db (snd (book_trip payload w)) = Some st.
Proof.
  intros Hdb Hup Hseats Hnd Ht Hcap Hid Hmin.
  assert (forall id, available t (bookings_of st id) = 0) as Hzero.
  { intros id. apply availability_without_capacity; [exact Hcap|].
    apply bookings_of_nonneg. exact Hseats. }
  split; [apply Hzero|]. split.
  - intros origin destination travel_date items item Hres Hin Hitem.
    pose proof (search_trips_reports_availability origin destination
                  travel_date w st items Hdb Hres) as Hall.
    rewrite Forall_forall in Hall. rewrite (Hall item Hin), Hitem.
    apply Hzero.
  - pose proof (find_by_id t (trips st) Hnd Ht) as Hfind.
    rewrite (book_trip_found payload w st (trip_id t) t Hdb Hup Hid Hfind).
    cbv zeta. rewrite Hzero.
    destruct (Z.ltb_spec 0 (req_seats payload)) as [_|Hle]; [|lia].
    split; reflexivity.
Qed.

Lemma trip_without_capacity_has_no_seats_witness :
  availability Sample.store Sample.unsized_trip = 0
  /\ (exists items item,
        fst (search_trips "new york" "BOSTON" "2026-11-04" Sample.world)
        = inr items
        /\ In item items /\ item_trip item = Sample.unsized_trip
        /\ available_seats item = 0)
  /\ fst (book_trip (Sample.request "65a1b2c3d4e5f60718293a4c" 1)
            Sample.world)
     = inl (HTTPException 400 "Only 0 seats available").
Proof.
  destruct (trip_without_capacity_has_no_seats
              (Sample.request "65a1b2c3d4e5f60718293a4c" 1)
              Sample.world Sample.store Sample.unsized_trip)
    as (Hzero & Hsearch & Hbook & _).
  - reflexivity.
  - intros n. reflexivity.
  - constructor.
  - simpl. repeat constructor; simpl; intuition discriminate.
  - simpl. auto.
  - reflexivity.
  - reflexivity.
  - simpl. lia.
  - split; [exact Hzero|]. split; [|exact Hbook].
    exists [Sample.found Sample.morning_trip 40;
            Sample.found Sample.unsized_trip 0],
           (Sample.found Sample.unsized_trip 0).
    split; [vm_compute; reflexivity|].
    split; [simpl; auto|]. split; [reflexivity|].
    apply (Hsearch "new york" "BOSTON" "2026-11-04"
             [Sample.found Sample.morning_trip 40;
              Sample.found Sample.unsized_trip 0]
             (Sample.found Sample.unsized_trip 0));
      [vm_compute; reflexivity | simpl; auto | reflexivity].
Defined.

(* ------------------------------------------------------------------ *)
(** ** Where the handlers depart from their description *)

(** C6. The text of the request goes into the pattern as it is: a search
    for origin [.*] selects the route from "New York", which that text does
    not equal under any case, and returns its trips. *)
Theorem search_pattern_is_not_escaped :
  Py.ci_eq ".*" "New York" = false
  /\ fst (get_documents busroute (route_filter ".*" "Boston") Sample.world)
     = inr [Sample.route_ny_bos]
  /\ exists items,
       fst (search_trips ".*" "Boston" "2026-11-04" Sample.world) = inr items
       /\ map item_trip items = [Sample.morning_trip; Sample.unsized_trip].
Proof.
  split; [reflexivity|]. split; [vm_compute; reflexivity|].
  eexists. split; vm_compute; reflexivity.
Qed.

(** A search whose text has no special character selects by equality up
    to case: "new york" finds the route from "New York", "york" does not. *)
Remark search_plain_text_is_exact :
  fst (get_documents busroute (route_filter "new york" "BOSTON") Sample.world)
  = inr [Sample.route_ny_bos]
  /\ fst (get_documents busroute (route_filter "york" "BOSTON") Sample.world)
     = inr [].
Proof. split; vm_compute; reflexivity. Qed.

(** The store out of reach when [book_trip] looks the trip up: the failure
    is caught with the [InvalidId] of a malformed identifier. *)
Lemma book_trip_lookup_outage (payload : BookingRequest) (w : World)
    (st : Store) (id : oid) :
  db w = Some st -> ObjectId (req_trip_id payload) = inr id ->
  outage w (List.length (calls w)) = true ->
  fst (book_trip payload w) = inl (HTTPException 404 "Trip not found").
Proof.
  intros Hdb Hid Hdown.
  unfold book_trip, bind, require_db, try_except, lift.
  rewrite Hdb, Hid. unfold find_one.
  rewrite (store_call_down _ _ w st Hdb Hdown). reflexivity.
Qed.

(** C8. With the store out of reach, [book_trip] on the identifier of a
    trip of the store answers 404 "Trip not found", where [search_trips]
    lets the failure of the store through. *)
Theorem book_trip_reports_outage_as_not_found :
  fst (book_trip (Sample.request "65a1b2c3d4e5f60718293a4b" 5)
         Sample.world_down)
  = inl (HTTPException 404 "Trip not found")
  /\ fst (search_trips "New York" "Boston" "2026-11-04" Sample.world_down)
     = inl ServerUnavailable.
Proof. split; vm_compute; reflexivity. Qed.

(** The store out of reach at the route query: [search_trips] raises the
    failure of the store. *)
Lemma search_trips_outage (origin destination travel_date : string)
    (w : World) (st : Store) :
  db w = Some st -> outage w (List.length (calls w)) = true ->
  fst (search_trips origin destination travel_date w) = inl ServerUnavailable.
Proof.
  intros Hdb Hdown. unfold search_trips, bind, require_db, get_documents.
  rewrite Hdb, (store_call_down _ _ w st Hdb Hdown). reflexivity.
Qed.

(** The store out of reach when [book_trip], its trip found, queries the
    bookings: the failure of the store is raised. *)
Lemma book_trip_query_outage (payload : BookingRequest) (w : World)
    (st : Store) (id : oid) (t : Trip) :
  db w = Some st -> ObjectId (req_trip_id payload) = inr id ->
  outage w (List.length (calls w)) = false ->
  List.find (fun x => String.eqb (trip_id x) id) (trips st) = Some t ->
  outage w (S (List.length (calls w))) = true ->
  fst (book_trip payload w) = inl ServerUnavailable
  /\ db (snd (book_trip payload w)) = Some st.
Proof.
  intros Hdb Hid Hup Hfind Hdown.
  unfold book_trip, bind, require_db, try_except, lift.
  rewrite Hdb, Hid. unfold find_one.
  rewrite (store_call_up _ _ w st Hdb Hup). simpl fst; simpl snd.
  change (coll_docs trip st) with (trips st).
  change (@doc_id Trip Trip_doc) with trip_id. rewrite Hfind.
  cbv beta iota. unfold get_documents, store_call. simpl db.
  simpl calls. rewrite length_app, Nat.add_comm. simpl outage.
  simpl List.length. rewrite Hdown. split; reflexivity.
Qed.

(** The bookings of a trip are counted under the spelling of the identifier
    a request carries: with the 40 seats of a trip booked under its
    identifier, a request that writes the same identifier in upper case is
    admitted. *)
Remark identifier_spelling_counts_apart :
  availability
    (with_booking
       (with_booking
          (with_booking
             (with_booking Sample.store
                (Sample.request "65a1b2c3d4e5f60718293a4b" 10))
             (Sample.request "65a1b2c3d4e5f60718293a4b" 10))
          (Sample.request "65a1b2c3d4e5f60718293a4b" 10))
       (Sample.request "65a1b2c3d4e5f60718293a4b" 10))
    Sample.morning_trip = 0
  /\ fst (book_trip (Sample.request "65A1B2C3D4E5F60718293A4B" 10)
            (run_bookings
               [Sample.request "65a1b2c3d4e5f60718293a4b" 10;
                Sample.request "65a1b2c3d4e5f60718293a4b" 10;
                Sample.request "65a1b2c3d4e5f60718293a4b" 10;
                Sample.request "65a1b2c3d4e5f60718293a4b" 10]
               Sample.world))
     = inr (mkBookingConfirmation "confirmed" "000000000000000000000005").
Proof. split; vm_compute; reflexivity. Qed.

(* ------------------------------------------------------------------ *)
(** ** The built-ins and the scenario of the description, run *)

Example py_str_35 : Py.str 35 = "35".
Proof. reflexivity. Qed.

Example py_lower_city : Py.lower "New York" = "new york".
Proof. reflexivity. Qed.

Example objectid_upper :
  Bson.ObjectId "65A1B2C3D4E5F60718293A4B" = inr "65a1b2c3d4e5f60718293a4b".
Proof. reflexivity. Qed.

Example objectid_short : Bson.ObjectId "abc" = inl InvalidId.
Proof. reflexivity. Qed.

Example of_counter_255 :
  Bson.of_counter 255 = "0000000000000000000000ff".
Proof. reflexivity. Qed.

Example pcre_city :
  option_map (fun p => (p "boston", p "Bostonian", p "Boston"))
    (Pcre.compile "^Boston$" "i") = Some (true, false, true).
Proof. reflexivity. Qed.

(** The trip of 40 seats: 5 seats are booked, 36 are then refused with 35
    reported, 35 are then booked, and the trip is full. *)
Example scenario_40_seats :
  fst (book_trip (Sample.request "65a1b2c3d4e5f60718293a4b" 36)
         (run_bookings [Sample.request "65a1b2c3d4e5f60718293a4b" 5]
            Sample.world))
  = inl (HTTPException 400 "Only 35 seats available")
  /\ option_map (fun st => availability st Sample.morning_trip)
       (db (run_bookings
              [Sample.request "65a1b2c3d4e5f60718293a4b" 5;
               Sample.request "65a1b2c3d4e5f60718293a4b" 36;
               Sample.request "65a1b2c3d4e5f60718293a4b" 35]
              Sample.world))
     = Some 0.
Proof. split; vm_compute; reflexivity. Qed.

(* ------------------------------------------------------------------ *)
(** * Further properties of the handlers *)

Import Seeding Steps.

(** ** Outcomes of [book_trip] *)

(** [book_trip] raises and leaves the store as it was, or answers
    "confirmed" with the identifier of the one booking it has inserted, for
    a trip its lookup found and a seat count within the availability it
    computed. *)
Lemma book_trip_outcome (payload : BookingRequest) (w : World) (st : Store) :
  db w = Some st ->
  (exists e, fst (book_trip payload w) = inl e
             /\ db (snd (book_trip payload w)) = Some st)
  \/ exists id t,
       ObjectId (req_trip_id payload) = inr id
       /\ List.find (fun x => String.eqb (trip_id x) id) (trips st) = Some t
       /\ req_seats payload
          <= available t (bookings_of st (req_trip_id payload))
       /\ fst (book_trip payload w)
          = inr (mkBookingConfirmation "confirmed"
                   (Bson.of_counter (next_oid st)))
       /\ db (snd (book_trip payload w)) = Some (with_booking st payload).
Proof.
  intros Hdb.
  unfold book_trip, bind, require_db, try_except, lift. rewrite Hdb.
  destruct (ObjectId (req_trip_id payload)) as [e|id] eqn:Hid.
  { left. eexists. split; [reflexivity | exact Hdb]. }
  unfold find_one, store_call. rewrite Hdb.
  destruct (outage w (List.length (calls w))).
  { left. eexists. split; reflexivity. }
  cbv beta iota. change (coll_docs trip st) with (trips st).
  change (@doc_id Trip Trip_doc) with trip_id.
  destruct (List.find (fun d => String.eqb (trip_id d) id) (trips st))
    as [t|] eqn:Hfind.
  2:{ left. eexists. split; reflexivity. }
  cbv beta iota.
  destruct (outage (after w (FindOne (coll_name trip) id) st)
              (List.length (calls (after w (FindOne (coll_name trip) id) st))))
    eqn:Hout.
  - left. unfold get_documents, store_call. rewrite Hout.
    eexists. split; reflexivity.
  - erewrite bookings_query_up; [| reflexivity | exact Hout].
    cbv beta iota.
    destruct (Z.ltb_spec (available t (bookings_of st (req_trip_id payload)))
                (req_seats payload)) as [_|Hle].
    { left. eexists. split; reflexivity. }
    cbv beta iota. unfold create_document.
    match goal with
    | |- context [store_call _ _ ?w2] =>
        destruct (outage w2 (List.length (calls w2))) eqn:Hout2
    end.
    + left. unfold store_call. rewrite Hout2. eexists. split; reflexivity.
    + right. exists id, t. unfold store_call. rewrite Hout2.
      repeat split; auto.
Qed.

(** X1. Whatever [book_trip] raises (not found, too few seats, a failure of
    the store at any of its calls), the store is left as it was. *)
Theorem book_trip_failure_keeps_store
    (payload : BookingRequest) (w : World) (st : Store) (e : exn) :
  db w = Some st ->
  fst (book_trip payload w) = inl e ->
  db (snd (book_trip payload w)) = Some st.
Proof.
  intros Hdb Hfail.
  destruct (book_trip_outcome payload w st Hdb)
    as [(e' & _ & Hsame) | (id & t & _ & _ & _ & Hok & _)];
    [exact Hsame | congruence].
Qed.

Lemma book_trip_failure_keeps_store_witness :
  db (snd (book_trip (Sample.request "65a1b2c3d4e5f60718293a4b" 41)
             Sample.world)) = Some Sample.store.
Proof.
  apply (book_trip_failure_keeps_store
           (Sample.request "65a1b2c3d4e5f60718293a4b" 41) Sample.world
           Sample.store (HTTPException 400 "Only 40 seats available")).
  - reflexivity.
  - vm_compute. reflexivity.
Defined.

(** X2. When [book_trip] answers, the answer is "confirmed" with the
    identifier of a booking that is the one document added to the store:
    routes, trips and the earlier bookings are as they were, the new booking
    carries the trip identifier, name, email, phone and seat count of the
    request, and the request's identifier is that of a trip of the store
    whose availability, computed on the bookings under that identifier,
    covers the seat count. *)
Theorem book_trip_success_appends
    (payload : BookingRequest) (w : World) (st : Store)
    (conf : BookingConfirmation) :
  db w = Some st ->
  fst (book_trip payload w) = inr conf ->
  exists st' b t,
    db (snd (book_trip payload w)) = Some st'
    /\ busroutes st' = busroutes st /\ trips st' = trips st
    /\ bookings st' = bookings st ++ [b]
    /\ status conf = "confirmed"
    /\ confirmed_booking_id conf = Bson.str (booking_id b)
    /\ b = model_dump payload (booking_id b)
    /\ In t (trips st)
    /\ ObjectId (req_trip_id payload) = inr (trip_id t)
    /\ req_seats payload
       <= available t (bookings_of st (req_trip_id payload)).
Proof.
  intros Hdb Hok.
  destruct (book_trip_outcome payload w st Hdb)
    as [(e & Hfail & _) | (id & t & Hid & Hfind & Hle & Hconf & Hnew)];
    [congruence|].
  rewrite Hconf in Hok. injection Hok as <-.
  exists (with_booking st payload),
         (model_dump payload (Bson.of_counter (next_oid st))), t.
  destruct (find_some _ _ Hfind) as (Hin & Heq).
  apply String.eqb_eq in Heq. subst id.
  repeat split; auto.
Qed.

Lemma book_trip_success_appends_witness :
  exists st' b t,
    db (snd (book_trip (Sample.request "65a1b2c3d4e5f60718293a4b" 5)
               Sample.world)) = Some st'
    /\ busroutes st' = busroutes Sample.store
    /\ trips st' = trips Sample.store
    /\ bookings st' = bookings Sample.store ++ [b]
    /\ status (mkBookingConfirmation "confirmed" "000000000000000000000001")
       = "confirmed"
    /\ confirmed_booking_id
         (mkBookingConfirmation "confirmed" "000000000000000000000001")
       = Bson.str (booking_id b)
    /\ b = model_dump (Sample.request "65a1b2c3d4e5f60718293a4b" 5)
             (booking_id b)
    /\ In t (trips Sample.store)
    /\ ObjectId (req_trip_id (Sample.request "65a1b2c3d4e5f60718293a4b" 5))
       = inr (trip_id t)
    /\ req_seats (Sample.request "65a1b2c3d4e5f60718293a4b" 5)
       <= available t
            (bookings_of Sample.store
               (req_trip_id (Sample.request "65a1b2c3d4e5f60718293a4b" 5))).
Proof.
  apply (book_trip_success_appends
           (Sample.request "65a1b2c3d4e5f60718293a4b" 5) Sample.world
           Sample.store
           (mkBookingConfirmation "confirmed" "000000000000000000000001")).
  - reflexivity.
  - vm_compute. reflexivity.
Defined.

(** X3. A request whose trip identifier [ObjectId] rejects is answered 404
    without any call to the store: the world is exactly as it was. *)
Theorem book_trip_malformed_makes_no_call
    (payload : BookingRequest) (w : World) (st : Store) (e : exn) :
  db w = Some st ->
  ObjectId (req_trip_id payload) = inl e ->
  book_trip payload w = (inl (HTTPException 404 "Trip not found"), w).
Proof.
  intros Hdb Hid.
  unfold book_trip, bind, require_db, try_except, lift.
  rewrite Hdb, Hid. reflexivity.
Qed.

Lemma book_trip_malformed_makes_no_call_witness :
  book_trip (Sample.request "65a1b2c3d4e5f60718293a4" 1) Sample.world
  = (inl (HTTPException 404 "Trip not found"), Sample.world).
Proof.
  apply (book_trip_malformed_makes_no_call
           (Sample.request "65a1b2c3d4e5f60718293a4" 1) Sample.world
           Sample.store InvalidId).
  - reflexivity.
  - reflexivity.
Defined.

(** X4. With the database not configured, [search_trips], [book_trip] and
    [seed_sample_data] each raise status 500, "Database not configured",
    before any call to the store. *)
Theorem handlers_need_configured_db
    (w : World) (origin destination travel_date today tomorrow : string)
    (payload : BookingRequest) :
  db w = None ->
  search_trips origin destination travel_date w
  = (inl (HTTPException 500 "Database not configured"), w)
  /\ book_trip payload w
     = (inl (HTTPException 500 "Database not configured"), w)
  /\ seed_sample_data today tomorrow w
     = (inl (HTTPException 500 "Database not configured"), w).
Proof.
  intros Hdb.
  unfold search_trips, book_trip, seed_sample_data, bind, require_db.
  rewrite Hdb. repeat split.
Qed.

Lemma handlers_need_configured_db_witness :
  fst (search_trips "New York" "Boston" "2026-11-04"
         (mkWorld None Pcre.compile (fun _ => false) []))
  = inl (HTTPException 500 "Database not configured")
  /\ fst (book_trip (Sample.request "65a1b2c3d4e5f60718293a4b" 1)
            (mkWorld None Pcre.compile (fun _ => false) []))
     = inl (HTTPException 500 "Database not configured")
  /\ fst (seed_sample_data "2026-11-04" "2026-11-05"
            (mkWorld None Pcre.compile (fun _ => false) []))
     = inl (HTTPException 500 "Database not configured").
Proof.
  destruct (handlers_need_configured_db
              (mkWorld None Pcre.compile (fun _ => false) [])
              "New York" "Boston" "2026-11-04" "2026-11-04" "2026-11-05"
              (Sample.request "65a1b2c3d4e5f60718293a4b" 1) eq_refl)
    as (Hs & Hb & Hd).
  rewrite Hs, Hb, Hd. repeat split.
Defined.

(* ------------------------------------------------------------------ *)
(** ** The result of a search *)

(** The trip query of [search_trips], on the trips of a store. *)
Lemma trip_query (engine : string -> string -> option (string -> bool))
    (routes : list Busroute) (travel_date : string) (ts : list Trip) :
  exists tests,
    compile_filter engine
      [("route_id", In_ (map (fun r => Bson.str (route_id r)) routes));
       ("travel_date", Eq travel_date)] = Some tests
    /\ List.filter (doc_matches tests) ts
       = List.filter (on_route_and_date routes travel_date) ts.
Proof.
  eexists; split; [reflexivity|].
  apply filter_ext. intros t. unfold doc_matches, on_route_and_date; simpl.
  destruct (trip_route_id t) as [r|]; simpl; [|reflexivity].
  f_equal. destruct (trip_travel_date t) as [d|]; simpl; [|reflexivity].
  rewrite andb_true_r. apply String.eqb_sym.
Qed.

(** The loop of [search_trips], when it returns: one bookings query per
    trip, in order, and the items read off the store. *)
Lemma for_each_enrich_exact (routes : list Busroute) (ts : list Trip) :
  forall (w w' : World) (st : Store) (items : list TripItem),
    db w = Some st ->
    for_each ts (enrich routes) w = (inr items, w') ->
    items = map (enriched st routes) ts
    /\ db w' = Some st /\ regex w' = regex w /\ outage w' = outage w
    /\ calls w' = calls w ++ map bookings_query ts.
Proof.
  induction ts as [|t ts IH]; intros w w' st items Hdb; simpl.
  - unfold ret. intros Heq. injection Heq as <- <-.
    rewrite app_nil_r. auto.
  - unfold bind at 1. unfold enrich at 1. unfold bind at 1.
    destruct (get_documents booking
                [("trip_id", Eq (Bson.str (trip_id t)))] w)
      as [[e|bs] w1] eqn:Hq; [discriminate|].
    destruct (get_documents_returns booking _ w w1 st bs Hdb Hq)
      as (tests & Hc & Hbs & Hw1).
    destruct (trip_id_query (regex w) (Bson.str (trip_id t)) (bookings st))
      as (tests' & Hc' & Hf).
    rewrite Hc in Hc'. injection Hc' as <-.
    simpl coll_docs in Hbs. rewrite Hf in Hbs.
    unfold ret at 1. cbv beta iota. unfold bind at 1.
    destruct (for_each ts (enrich routes) w1) as [[e|rest] w2] eqn:Hrest;
      [discriminate|].
    assert (db w1 = Some st) as Hdb1 by (subst w1; reflexivity).
    destruct (IH w1 w2 st rest Hdb1 Hrest)
      as (Hitems & Hdb2 & Hre & Hout & Hcalls).
    unfold ret. intros Heq. injection Heq as <- <-.
    subst bs rest. split; [reflexivity|]. split; [exact Hdb2|].
    subst w1. simpl in *. rewrite Hre, Hout, Hcalls, <- app_assoc.
    repeat split.
Qed.

(** [search_trips], when it returns: the routes that pass the route
    filter, the trips of these routes on the date, in the order of the
    store, each with its availability and the fields of its route; and the
    calls it has made. *)
Lemma search_trips_exact (origin destination travel_date : string)
    (w : World) (st : Store) (items : list TripItem) :
  db w = Some st ->
  fst (search_trips origin destination travel_date w) = inr items ->
  exists tests,
    compile_filter (regex w) (route_filter origin destination) = Some tests
    /\ let routes := List.filter (doc_matches tests) (busroutes st) in
       let ts := List.filter (on_route_and_date routes travel_date)
                   (trips st) in
       items = map (enriched st routes) ts
       /\ calls (snd (search_trips origin destination travel_date w))
          = calls w
            ++ FindMany "busroute" (route_filter origin destination)
               :: match routes with
                  | [] => []
                  | _ :: _ =>
                      FindMany "trip"
                        [("route_id",
                          In_ (map (fun r => Bson.str (route_id r)) routes));
                         ("travel_date", Eq travel_date)]
                      :: map bookings_query ts
                  end.
Proof.
  intros Hdb. unfold search_trips, bind, require_db. rewrite Hdb.
  destruct (get_documents busroute (route_filter origin destination) w)
    as [[e|routes] w1] eqn:Hr; [discriminate|].
  destruct (get_documents_returns busroute _ w w1 st routes Hdb Hr)
    as (tests & Hc & Hroutes & Hw1).
  change (coll_docs busroute st) with (busroutes st) in Hroutes.
  intros Hres. exists tests. split; [exact Hc|]. cbv zeta.
  rewrite <- Hroutes. revert Hres.
  destruct routes as [|r routes].
  - simpl map. cbv beta iota. unfold ret; simpl. intros [= <-].
    rewrite filter_none; [split; [reflexivity | subst w1; reflexivity]|].
    intros t _. unfold on_route_and_date.
    destruct (trip_route_id t); reflexivity.
  - cbn [map]. cbv beta iota.
    match goal with
    | |- context [get_documents trip ?flt w1] =>
        destruct (get_documents trip flt w1) as [[e|ts] w2] eqn:Ht;
          [discriminate|];
        destruct (get_documents_returns trip flt w1 w2 st ts)
          as (tests2 & Hc2 & Hts & Hw2);
          [subst w1; reflexivity | exact Ht |]
    end.
    destruct (trip_query (regex w1) (r :: routes) travel_date (trips st))
      as (tests2' & Hc2' & Hf).
    cbn [map] in Hc2'. rewrite Hc2 in Hc2'. injection Hc2' as <-.
    change (coll_docs trip st) with (trips st) in Hts. rewrite Hf in Hts.
    destruct (for_each ts (enrich (r :: routes)) w2) as [res w3] eqn:Hloop.
    simpl fst; simpl snd. intros ->.
    destruct (for_each_enrich_exact (r :: routes) ts w2 w3 st items)
      as (Hitems & _ & _ & _ & Hcalls);
      [subst w2; reflexivity | exact Hloop |].
    subst ts. split; [exact Hitems|].
    rewrite Hcalls. subst w2 w1. unfold after; simpl calls.
    rewrite <- !app_assoc. reflexivity.
Qed.

(** X5. When [search_trips] returns, the trips of its items are exactly,
    in the order of the store, the trips of the store whose travel date is
    the requested one and whose [route_id] is the identifier of a route
    that passed the route filter. *)
Theorem search_returns_trips_of_route_and_date
    (origin destination travel_date : string) (w : World) (st : Store)
    (items : list TripItem) :
  db w = Some st ->
  fst (search_trips origin destination travel_date w) = inr items ->
  exists tests,
    compile_filter (regex w) (route_filter origin destination) = Some tests
    /\ map item_trip items
       = List.filter
           (on_route_and_date
              (List.filter (doc_matches tests) (busroutes st)) travel_date)
           (trips st).
Proof.
  intros Hdb Hres.
  destruct (search_trips_exact origin destination travel_date w st items
              Hdb Hres) as (tests & Hc & Hitems & _).
  exists tests. split; [exact Hc|]. rewrite Hitems, map_map. simpl.
  apply map_id.
Qed.

Lemma search_returns_trips_of_route_and_date_witness :
  exists tests,
    compile_filter (regex Sample.world) (route_filter "new york" "BOSTON")
    = Some tests
    /\ map item_trip [Sample.found Sample.morning_trip 40;
                      Sample.found Sample.unsized_trip 0]
       = List.filter
           (on_route_and_date
              (List.filter (doc_matches tests) (busroutes Sample.store))
              "2026-11-04")
           (trips Sample.store).
Proof.
  apply (search_returns_trips_of_route_and_date "new york" "BOSTON"
           "2026-11-04" Sample.world Sample.store).
  - reflexivity.
  - vm_compute. reflexivity.
Defined.

(** X6. Every item [search_trips] returns carries the fields of a route:
    one of the store that passed the route filter and whose identifier is
    the [route_id] of the item's trip; the item reports the availability of
    that trip, a trip of the store on the requested date. *)
Theorem search_items_are_enriched
    (origin destination travel_date : string) (w : World) (st : Store)
    (items : list TripItem) (item : TripItem) :
  db w = Some st ->
  fst (search_trips origin destination travel_date w) = inr items ->
  In item items ->
  exists tests r,
    compile_filter (regex w) (route_filter origin destination) = Some tests
    /\ In r (busroutes st) /\ doc_matches tests r = true
    /\ In (item_trip item) (trips st)
    /\ trip_route_id (item_trip item) = Some (Bson.str (route_id r))
    /\ trip_travel_date (item_trip item) = Some travel_date
    /\ item_route item
       = Some (mkRouteInfo (route_origin r) (route_destination r)
                 (route_duration_minutes r))
    /\ available_seats item = availability st (item_trip item).
Proof.
  intros Hdb Hres Hin.
  destruct (search_trips_exact origin destination travel_date w st items
              Hdb Hres) as (tests & Hc & Hitems & _).
  cbv zeta in Hitems. subst items.
  apply in_map_iff in Hin. destruct Hin as (t & <- & Ht).
  apply filter_In in Ht. destruct Ht as (Ht & Hok).
  unfold on_route_and_date in Hok. apply andb_prop in Hok.
  destruct Hok as (Hroute & Hdate).
  destruct (trip_route_id t) as [rid|] eqn:Hrid; [|discriminate].
  apply existsb_exists in Hroute. destruct Hroute as (x & Hx & Heq).
  apply String.eqb_eq in Heq. subst x.
  apply in_map_iff in Hx. destruct Hx as (r0 & Hr0 & Hr0in).
  destruct (List.find
              (fun r => same_opt (Some (Bson.str (route_id r)))
                          (trip_route_id t))
              (List.filter (doc_matches tests) (busroutes st)))
    as [r|] eqn:Hfind.
  - destruct (find_some _ _ Hfind) as (Hrin & Hsame).
    apply filter_In in Hrin. destruct Hrin as (Hrin & Hpass).
    rewrite Hrid in Hsame. simpl in Hsame. apply String.eqb_eq in Hsame.
    exists tests, r. unfold enriched.
    cbn [item_trip item_route available_seats]. rewrite Hfind.
    repeat split; auto.
    + rewrite Hsame. exact Hrid.
    + destruct (trip_travel_date t) as [d|]; simpl in Hdate;
        [|discriminate].
      apply String.eqb_eq in Hdate. congruence.
  - exfalso.
    pose proof (find_none _ _ Hfind r0 Hr0in) as Hno.
    rewrite Hrid in Hno. simpl in Hno. rewrite Hr0 in Hno.
    rewrite String.eqb_refl in Hno. discriminate.
Qed.

Lemma search_items_are_enriched_witness :
  exists tests r,
    compile_filter (regex Sample.world) (route_filter "new york" "BOSTON")
    = Some tests
    /\ In r (busroutes Sample.store) /\ doc_matches tests r = true
    /\ In (item_trip (Sample.found Sample.morning_trip 40))
         (trips Sample.store)
    /\ trip_route_id (item_trip (Sample.found Sample.morning_trip 40))
       = Some (Bson.str (route_id r))
    /\ trip_travel_date (item_trip (Sample.found Sample.morning_trip 40))
       = Some "2026-11-04"
    /\ item_route (Sample.found Sample.morning_trip 40)
       = Some (mkRouteInfo (route_origin r) (route_destination r)
                 (route_duration_minutes r))
    /\ available_seats (Sample.found Sample.morning_trip 40)
       = availability Sample.store
           (item_trip (Sample.found Sample.morning_trip 40)).
Proof.
  apply (search_items_are_enriched "new york" "BOSTON" "2026-11-04"
           Sample.world Sample.store
           [Sample.found Sample.morning_trip 40;
            Sample.found Sample.unsized_trip 0]).
  - reflexivity.
  - vm_compute. reflexivity.
  - simpl. auto.
Defined.

(** X7. A search that returns has made one route query and, when a route
    passed, one trip query and then one bookings query for each item it
    returns, in the order of the items: 2 + n calls for n items. *)
Theorem search_queries_bookings_per_trip
    (origin destination travel_date : string) (w : World) (st : Store)
    (items : list TripItem) (r : Busroute)
    (tests : list (string * (string -> bool))) :
  db w = Some st ->
  fst (search_trips origin destination travel_date w) = inr items ->
  compile_filter (regex w) (route_filter origin destination) = Some tests ->
  In r (busroutes st) -> doc_matches tests r = true ->
  exists trip_filter,
    calls (snd (search_trips origin destination travel_date w))
    = calls w
      ++ FindMany "busroute" (route_filter origin destination)
         :: FindMany "trip" trip_filter
         :: map (fun item => bookings_query (item_trip item)) items
    /\ List.length (calls (snd (search_trips origin destination
                                  travel_date w)))
       = (List.length (calls w) + 2 + List.length items)%nat.
Proof.
  intros Hdb Hres Htests Hr Hpass.
  destruct (search_trips_exact origin destination travel_date w st items
              Hdb Hres) as (tests' & Hc & Hitems & Hcalls).
  rewrite Htests in Hc. injection Hc as <-. cbv zeta in Hitems, Hcalls.
  assert (In r (List.filter (doc_matches tests) (busroutes st))) as Hin
    by (apply filter_In; auto).
  destruct (List.filter (doc_matches tests) (busroutes st))
    as [|r1 routes] eqn:Hroutes; [contradiction|].
  eexists. rewrite Hcalls. split.
  - rewrite Hitems, map_map. reflexivity.
  - rewrite Hitems, length_app. simpl. rewrite !length_map. lia.
Qed.

Lemma search_queries_bookings_per_trip_witness :
  List.length
    (calls (snd (search_trips "new york" "BOSTON" "2026-11-04"
                   Sample.world))) = 4%nat.
Proof.
  destruct (search_queries_bookings_per_trip "new york" "BOSTON"
              "2026-11-04" Sample.world Sample.store
              [Sample.found Sample.morning_trip 40;
               Sample.found Sample.unsized_trip 0]
              Sample.route_ny_bos
              [("origin", Sample.compiled "^new york$");
               ("destination", Sample.compiled "^BOSTON$")])
    as (flt & _ & Hlen).
  - reflexivity.
  - vm_compute. reflexivity.
  - vm_compute. reflexivity.
  - simpl. auto.
  - vm_compute. reflexivity.
  - exact Hlen.
Defined.

(* ------------------------------------------------------------------ *)
(** ** What the handlers leave as it is *)

Lemma keeps_ret {A} (a : A) : keeps_server (ret a).
Proof. intros w. split; reflexivity. Qed.

Lemma keeps_raise {A} (e : exn) : keeps_server (@raise A e).
Proof. intros w. split; reflexivity. Qed.

Lemma keeps_lift {A} (r : exn + A) : keeps_server (lift r).
Proof. intros w. split; reflexivity. Qed.

Lemma keeps_bind {A B} (m : M A) (k : A -> M B) :
  keeps_server m -> (forall a, keeps_server (k a)) -> keeps_server (bind m k).
Proof.
  intros Hm Hk w. unfold bind. specialize (Hm w).
  destruct (m w) as [[e|a] w1]; simpl in *; [exact Hm|].
  destruct (Hk a w1) as (Hr & Ho). destruct Hm as (Hr1 & Ho1).
  split; congruence.
Qed.

Lemma keeps_try {A} (m : M A) (handler : exn -> M A) :
  keeps_server m -> (forall e, keeps_server (handler e)) ->
  keeps_server (try_except m handler).
Proof.
  intros Hm Hh w. unfold try_except. specialize (Hm w).
  destruct (m w) as [[e|a] w1]; simpl in *; [|exact Hm].
  destruct (Hh e w1) as (Hr & Ho). destruct Hm as (Hr1 & Ho1).
  split; congruence.
Qed.

Lemma keeps_store_call {A} (c : call) (f : Store -> (exn + A) * Store) :
  keeps_server (store_call c f).
Proof.
  intros w. unfold store_call.
  destruct (db w) as [st|]; [|split; reflexivity].
  destruct (outage w (List.length (calls w))); [split; reflexivity|].
  destruct (f st); split; reflexivity.
Qed.

Lemma keeps_for_each {A B} (xs : list A) (f : A -> M B) :
  (forall x, keeps_server (f x)) -> keeps_server (for_each xs f).
Proof.
  intros Hf. induction xs as [|x xs IH]; simpl.
  - intros w. split; reflexivity.
  - apply keeps_bind; [apply Hf|]. intros y.
    apply keeps_bind; [exact IH|]. intros ys w. split; reflexivity.
Qed.

Lemma reads_bind {A B} (m : M A) (k : A -> M B) :
  reads_only m -> (forall a, reads_only (k a)) -> reads_only (bind m k).
Proof.
  intros Hm Hk w. unfold bind. specialize (Hm w).
  destruct (m w) as [[e|a] w1]; simpl in *; [exact Hm|].
  rewrite (Hk a w1). exact Hm.
Qed.

Lemma reads_for_each {A B} (xs : list A) (f : A -> M B) :
  (forall x, reads_only (f x)) -> reads_only (for_each xs f).
Proof.
  intros Hf. induction xs as [|x xs IH]; simpl.
  - intros w. reflexivity.
  - apply reads_bind; [apply Hf|]. intros y.
    apply reads_bind; [exact IH|]. intros ys w. reflexivity.
Qed.

Lemma keeps_require_db : keeps_server require_db.
Proof. intros w. unfold require_db. destruct (db w); split; reflexivity. Qed.

Lemma reads_require_db : reads_only require_db.
Proof.
  intros w. unfold require_db. destruct (db w) eqn:Hdb; simpl; congruence.
Qed.

Lemma keeps_get_documents {D} `{Document D} (coll : Collection D)
    (flt : filter) : keeps_server (get_documents coll flt).
Proof.
  intros w. unfold get_documents. apply (keeps_store_call _ _ w).
Qed.

Lemma reads_get_documents {D} `{Document D} (coll : Collection D)
    (flt : filter) : reads_only (get_documents coll flt).
Proof.
  intros w. destruct (db w) as [st|] eqn:Hdb.
  - apply (get_documents_reads coll flt w st Hdb).
  - unfold get_documents, store_call. rewrite Hdb. exact Hdb.
Qed.

Lemma reads_enrich (routes : list Busroute) (t : Trip) :
  reads_only (enrich routes t).
Proof.
  unfold enrich. apply reads_bind; [apply reads_get_documents|].
  intros bs w. reflexivity.
Qed.

Lemma keeps_enrich (routes : list Busroute) (t : Trip) :
  keeps_server (enrich routes t).
Proof.
  unfold enrich. apply keeps_bind; [apply keeps_get_documents|].
  intros bs. apply keeps_ret.
Qed.

Lemma keeps_search_trips (origin destination travel_date : string) :
  keeps_server (search_trips origin destination travel_date).
Proof.
  unfold search_trips. apply keeps_bind; [apply keeps_require_db|].
  intros _. apply keeps_bind; [apply keeps_get_documents|].
  intros routes. destruct (map _ routes); [apply keeps_ret|].
  apply keeps_bind; [apply keeps_get_documents|].
  intros ts. apply keeps_for_each. apply keeps_enrich.
Qed.

Lemma keeps_book_trip (payload : BookingRequest) :
  keeps_server (book_trip payload).
Proof.
  unfold book_trip. apply keeps_bind; [apply keeps_require_db|].
  intros _. apply keeps_bind.
  - apply keeps_try; [|intros e; apply keeps_ret].
    apply keeps_bind; [apply keeps_lift|].
    intros id. apply keeps_store_call.
  - intros [t|]; [|apply keeps_raise].
    apply keeps_bind; [apply keeps_get_documents|].
    intros bs. cbv zeta.
    destruct (available t bs <? req_seats payload)%Z; [apply keeps_raise|].
    apply keeps_bind; [apply keeps_store_call|].
    intros id. apply keeps_ret.
Qed.

Lemma reads_search_trips (origin destination travel_date : string) :
  reads_only (search_trips origin destination travel_date).
Proof.
  unfold search_trips. apply reads_bind; [apply reads_require_db|].
  intros _. apply reads_bind; [apply reads_get_documents|].
  intros routes. destruct (map _ routes); [intros w; reflexivity|].
  apply reads_bind; [apply reads_get_documents|].
  intros ts. apply reads_for_each. apply reads_enrich.
Qed.

Lemma reads_list_bookings (email : option string) :
  reads_only (list_bookings email).
Proof.
  unfold list_bookings. apply reads_bind; [apply reads_get_documents|].
  intros docs w. reflexivity.
Qed.

(** X8. [search_trips] and [list_bookings] only read: whatever they return
    or raise, and wherever a call fails, the store is left as it was. *)
Theorem search_and_list_only_read
    (origin destination travel_date : string) (email : option string)
    (w : World) :
  db (snd (search_trips origin destination travel_date w)) = db w
  /\ db (snd (list_bookings email w)) = db w.
Proof.
  split; [apply reads_search_trips | apply reads_list_bookings].
Qed.

(* ------------------------------------------------------------------ *)
(** ** Availability and the order of the bookings *)

Lemma seats_booked_permutation (bs bs' : list Booking) :
  Permutation bs bs' -> seats_booked bs = seats_booked bs'.
Proof.
  induction 1 as [|b bs bs' _ IH|a b bs|bs bs1 bs2 _ IH1 _ IH2].
  - reflexivity.
  - rewrite !seats_booked_cons, IH. reflexivity.
  - rewrite !seats_booked_cons. lia.
  - congruence.
Qed.

(** X9. The availability of a trip does not depend on the order in which
    the store answers its bookings. *)
Theorem availability_ignores_order (t : Trip) (bs bs' : list Booking) :
  Permutation bs bs' -> available t bs = available t bs'.
Proof.
  intros Hperm. unfold available.
  rewrite (seats_booked_permutation bs bs' Hperm). reflexivity.
Qed.

Lemma availability_ignores_order_witness :
  available Sample.morning_trip
    [Sample.booked "01" (Some 5); Sample.booked "02" (Some 7)]
  = available Sample.morning_trip
      [Sample.booked "02" (Some 7); Sample.booked "01" (Some 5)].
Proof.
  apply (availability_ignores_order Sample.morning_trip). apply perm_swap.
Defined.

(* ------------------------------------------------------------------ *)
(** ** How the handlers compose *)

Lemma reachable_after (w w' : World) :
  outage w' = outage w -> reachable w -> reachable w'.
Proof. intros Heq Hup n. rewrite Heq. apply Hup. Qed.

(** [list_bookings] with the store within reach. *)
Lemma list_bookings_up (email : option string) (w : World) (st : Store) :
  db w = Some st -> outage w (List.length (calls w)) = false ->
  fst (list_bookings email w)
  = inr (if Py.truthy email
         then List.filter
                (fun b => same_opt (booking_email b) (Some (Py.get email "")))
                (bookings st)
         else bookings st).
Proof.
  intros Hdb Hup. unfold list_bookings, bind.
  destruct (Py.truthy email).
  - destruct (email_query (regex w) (Py.get email "") (bookings st))
      as (tests & Hc & Hf).
    rewrite (get_documents_up booking _ tests w st Hdb Hup Hc).
    simpl coll_docs. rewrite Hf. unfold serialize_doc. simpl.
    rewrite map_id. reflexivity.
  - rewrite (get_documents_up booking [] [] w st Hdb Hup eq_refl).
    simpl coll_docs. unfold doc_matches; simpl forallb.
    rewrite filter_all. unfold serialize_doc. simpl. rewrite map_id.
    reflexivity.
Qed.

(** X10. A booking [book_trip] has confirmed is listed: [list_bookings]
    with the email of the request, run next, returns a booking with the
    confirmed identifier and the fields of the request. *)
Theorem confirmed_booking_is_listed
    (payload : BookingRequest) (w : World) (st : Store)
    (conf : BookingConfirmation) :
  db w = Some st -> reachable w ->
  fst (book_trip payload w) = inr conf ->
  exists bs b,
    fst (list_bookings (Some (req_email payload))
           (snd (book_trip payload w))) = inr bs
    /\ In b bs
    /\ Bson.str (booking_id b) = confirmed_booking_id conf
    /\ b = model_dump payload (booking_id b).
Proof.
  intros Hdb Hup Hok.
  destruct (book_trip_outcome payload w st Hdb)
    as [(e & Hfail & _) | (id & t & _ & _ & _ & Hconf & Hdb')];
    [congruence|].
  rewrite Hconf in Hok. injection Hok as <-.
  destruct (keeps_book_trip payload w) as (_ & Hout).
  pose proof (reachable_after w _ Hout Hup) as Hup'.
  rewrite (list_bookings_up _ _ _ Hdb' (Hup' _)).
  eexists. exists (model_dump payload (Bson.of_counter (next_oid st))).
  split; [reflexivity|]. split; [|split; reflexivity].
  assert (In (model_dump payload (Bson.of_counter (next_oid st)))
            (bookings (with_booking st payload))) as Hin
    by (simpl; apply in_or_app; right; simpl; auto).
  destruct (Py.truthy (Some (req_email payload))); [|exact Hin].
  apply filter_In. split; [exact Hin|].
  simpl. apply String.eqb_refl.
Qed.

Lemma confirmed_booking_is_listed_witness :
  exists bs b,
    fst (list_bookings (Some "ann@example.org")
           (snd (book_trip (Sample.request "65a1b2c3d4e5f60718293a4b" 5)
                   Sample.world))) = inr bs
    /\ In b bs
    /\ Bson.str (booking_id b) = "000000000000000000000001"
    /\ b = model_dump (Sample.request "65a1b2c3d4e5f60718293a4b" 5)
             (booking_id b).
Proof.
  apply (confirmed_booking_is_listed
           (Sample.request "65a1b2c3d4e5f60718293a4b" 5) Sample.world
           Sample.store
           (mkBookingConfirmation "confirmed" "000000000000000000000001")).
  - reflexivity.
  - intros n. reflexivity.
  - vm_compute. reflexivity.
Defined.

(** An item of a search result is for a trip of the store and reports
    its availability. *)
Lemma search_item_of_store
    (origin destination travel_date : string) (w : World) (st : Store)
    (items : list TripItem) (item : TripItem) :
  db w = Some st ->
  fst (search_trips origin destination travel_date w) = inr items ->
  In item items ->
  In (item_trip item) (trips st)
  /\ available_seats item = availability st (item_trip item).
Proof.
  intros Hdb Hres Hin.
  destruct (search_trips_exact origin destination travel_date w st items
              Hdb Hres) as (tests & _ & Hitems & _).
  cbv zeta in Hitems. subst items.
  apply in_map_iff in Hin. destruct Hin as (t & <- & Ht).
  apply filter_In in Ht. destruct Ht as (Ht & _).
  split; [exact Ht | reflexivity].
Qed.

(** X11. What a search reports is what the booking enforces: for an item
    of a search result, a request made next under the identifier of the
    item's trip is confirmed when its seat count is within the item's
    [available_seats], and refused with that number in the message when it
    is above. *)
Theorem search_availability_is_enforced
    (origin destination travel_date : string) (payload : BookingRequest)
    (w : World) (st : Store) (items : list TripItem) (item : TripItem) :
  db w = Some st -> reachable w ->
  NoDup (map trip_id (trips st)) ->
  fst (search_trips origin destination travel_date w) = inr items ->
  In item items ->
  canonical (trip_id (item_trip item)) ->
  req_trip_id payload = Bson.str (trip_id (item_trip item)) ->
  (req_seats payload <= available_seats item ->
   exists id,
     fst (book_trip payload
            (snd (search_trips origin destination travel_date w)))
     = inr (mkBookingConfirmation "confirmed" id))
  /\ (available_seats item < req_seats payload ->
      fst (book_trip payload
             (snd (search_trips origin destination travel_date w)))
      = inl (HTTPException 400
               ("Only " ++ Py.str (available_seats item)
                ++ " seats available"))).
Proof.
  intros Hdb Hup Hnd Hres Hin Hcan Hp.
  destruct (search_item_of_store origin destination travel_date w st
              items item Hdb Hres Hin) as (Ht & Havail).
  pose proof (reads_search_trips origin destination travel_date w) as Hsame.
  rewrite Hdb in Hsame.
  destruct (keeps_search_trips origin destination travel_date w)
    as (_ & Hout).
  pose proof (reachable_after w _ Hout Hup) as Hup'.
  destruct (canonical_lookup st (item_trip item) Hnd Ht Hcan)
    as (Hid & Hfind).
  rewrite <- Hp in Hid.
  rewrite (book_trip_found payload _ st (trip_id (item_trip item))
             (item_trip item) Hsame Hup' Hid Hfind).
  cbv zeta. rewrite Havail. unfold availability. rewrite <- Hp.
  destruct (Z.ltb_spec
              (available (item_trip item)
                 (bookings_of st (req_trip_id payload)))
              (req_seats payload)) as [Hlt|Hle].
  - split; [lia | reflexivity].
  - split; [eexists; reflexivity | lia].
Qed.

Lemma search_availability_is_enforced_witness :
  (exists id,
     fst (book_trip (Sample.request "65a1b2c3d4e5f60718293a4b" 40)
            (snd (search_trips "new york" "BOSTON" "2026-11-04"
                    Sample.world)))
     = inr (mkBookingConfirmation "confirmed" id))
  /\ fst (book_trip (Sample.request "65a1b2c3d4e5f60718293a4b" 41)
            (snd (search_trips "new york" "BOSTON" "2026-11-04"
                    Sample.world)))
     = inl (HTTPException 400 "Only 40 seats available").
Proof.
  split.
  - apply (search_availability_is_enforced "new york" "BOSTON" "2026-11-04"
             (Sample.request "65a1b2c3d4e5f60718293a4b" 40)
             Sample.world Sample.store
             [Sample.found Sample.morning_trip 40;
              Sample.found Sample.unsized_trip 0]
             (Sample.found Sample.morning_trip 40)).
    + reflexivity.
    + intros n. reflexivity.
    + simpl. repeat constructor; simpl; intuition discriminate.
    + vm_compute. reflexivity.
    + simpl. auto.
    + reflexivity.
    + reflexivity.
    + simpl. lia.
  - apply (search_availability_is_enforced "new york" "BOSTON" "2026-11-04"
             (Sample.request "65a1b2c3d4e5f60718293a4b" 41)
             Sample.world Sample.store
             [Sample.found Sample.morning_trip 40;
              Sample.found Sample.unsized_trip 0]
             (Sample.found Sample.morning_trip 40)).
    + reflexivity.
    + intros n. reflexivity.
    + simpl. repeat constructor; simpl; intuition discriminate.
    + vm_compute. reflexivity.
    + simpl. auto.
    + reflexivity.
    + reflexivity.
    + simpl. lia.
Defined.

(* ------------------------------------------------------------------ *)
(** ** Two requests at once *)

(** [book_trip] is its check followed by its insert. *)
Lemma book_trip_is_check_then_write (payload : BookingRequest) (w : World) :
  book_trip payload w
  = bind (admission_check payload) (fun _ => admission_write payload) w.
Proof.
  unfold book_trip, admission_check, admission_write, bind, require_db.
  destruct (db w); [|reflexivity].
  destruct (try_except _ _ w) as [[e|[t|]] w1]; try reflexivity.
  destruct (get_documents booking _ w1) as [[e|bs] w2]; try reflexivity.
  cbv zeta.
  destruct (available t bs <? req_seats payload)%Z; reflexivity.
Qed.

Lemma admission_check_passes (payload : BookingRequest) (w : World)
    (st : Store) (id : oid) (t : Trip) :
  db w = Some st -> reachable w ->
  ObjectId (req_trip_id payload) = inr id ->
  List.find (fun x => String.eqb (doc_id x) id) (trips st) = Some t ->
  req_seats payload <= available t (bookings_of st (req_trip_id payload)) ->
  admission_check payload w
  = (inr tt,
     after (after w (FindOne "trip" id) st)
       (FindMany "booking" [("trip_id", Eq (req_trip_id payload))]) st).
Proof.
  intros Hdb Hup Hid Hfind Hle.
  unfold admission_check, bind, require_db, try_except, lift.
  rewrite Hdb, Hid. unfold find_one.
  rewrite (store_call_up _ _ w st Hdb (Hup _)). simpl fst; simpl snd.
  simpl coll_docs; simpl coll_name. simpl in Hfind. rewrite Hfind.
  cbv beta iota.
  rewrite (bookings_query_up (req_trip_id payload)
             (after w (FindOne "trip" id) st) st eq_refl (Hup _)).
  cbv beta iota zeta.
  destruct (Z.ltb_spec (available t (bookings_of st (req_trip_id payload)))
              (req_seats payload)) as [Hlt|_]; [lia | reflexivity].
Qed.

Lemma admission_write_up (payload : BookingRequest) (w : World)
    (st : Store) :
  db w = Some st -> outage w (List.length (calls w)) = false ->
  admission_write payload w
  = (inr (mkBookingConfirmation "confirmed"
            (Bson.of_counter (next_oid st))),
     after w (InsertOne "booking") (with_booking st payload)).
Proof.
  intros Hdb Hup. unfold admission_write, bind, create_document.
  rewrite (store_call_up _ _ w st Hdb Hup). reflexivity.
Qed.

(** X12. The availability check and the insert of [book_trip] are two
    calls to the store. When two requests for one trip are served with both
    checks before either insert, each with a seat count within the
    availability, both are confirmed and both bookings are stored: with
    more seats together than the availability, the trip then holds more
    seats than its capacity. *)
Theorem interleaved_requests_overbook
    (p1 p2 : BookingRequest) (w : World) (st : Store) (t : Trip)
    (capacity : Z) :
  db w = Some st -> reachable w ->
  NoDup (map trip_id (trips st)) -> In t (trips st) ->
  canonical (trip_id t) -> trip_capacity t = Some capacity ->
  req_trip_id p1 = Bson.str (trip_id t) ->
  req_trip_id p2 = Bson.str (trip_id t) ->
  req_seats p1 <= availability st t ->
  req_seats p2 <= availability st t ->
  availability st t < req_seats p1 + req_seats p2 ->
  (forall p w', book_trip p w'
                = bind (admission_check p) (fun _ => admission_write p) w')
  /\ exists id1 id2 st',
       fst (interleaved p1 p2 w)
       = inr (mkBookingConfirmation "confirmed" id1,
              mkBookingConfirmation "confirmed" id2)
       /\ db (snd (interleaved p1 p2 w)) = Some st'
       /\ bookings st'
          = bookings st ++ [model_dump p1 id1; model_dump p2 id2]
       /\ capacity < seats_booked (bookings_of st' (Bson.str (trip_id t))).
Proof.
  intros Hdb Hup Hnd Ht Hcan Hcap Hp1 Hp2 Hle1 Hle2 Hsum.
  split; [exact book_trip_is_check_then_write|].
  destruct (canonical_lookup st t Hnd Ht Hcan) as (Hid & Hfind).
  unfold availability in *.
  assert (ObjectId (req_trip_id p1) = inr (trip_id t)) as Hid1
    by (rewrite Hp1; exact Hid).
  assert (ObjectId (req_trip_id p2) = inr (trip_id t)) as Hid2
    by (rewrite Hp2; exact Hid).
  unfold interleaved, bind.
  rewrite (admission_check_passes p1 w st (trip_id t) t Hdb Hup Hid1 Hfind)
    by (rewrite Hp1; exact Hle1).
  set (w1 := after (after w _ st) _ st).
  assert (reachable w1) as Hup1 by (intros n; apply Hup).
  rewrite (admission_check_passes p2 w1 st (trip_id t) t eq_refl Hup1 Hid2
             Hfind) by (rewrite Hp2; exact Hle2).
  set (w2 := after (after w1 _ st) _ st).
  assert (reachable w2) as Hup2 by (intros n; apply Hup).
  rewrite (admission_write_up p1 w2 st eq_refl (Hup2 _)).
  set (w3 := after w2 _ (with_booking st p1)).
  assert (reachable w3) as Hup3 by (intros n; apply Hup).
  rewrite (admission_write_up p2 w3 (with_booking st p1) eq_refl (Hup3 _)).
  unfold ret. simpl fst; simpl snd.
  eexists _, _, _. split; [reflexivity|]. split; [reflexivity|].
  split.
  - simpl bookings. rewrite <- app_assoc. reflexivity.
  - rewrite !seats_booked_with_booking.
    rewrite Hp1, Hp2, !String.eqb_refl.
    unfold available in Hsum. rewrite Hcap in Hsum. simpl Py.get in Hsum.
    lia.
Qed.

Lemma interleaved_requests_overbook_witness :
  exists id1 id2 st',
    fst (interleaved (Sample.request "65a1b2c3d4e5f60718293a4b" 10)
           (Sample.request "65a1b2c3d4e5f60718293a4b" 6)
           (run_bookings [Sample.request "65a1b2c3d4e5f60718293a4b" 10;
                          Sample.request "65a1b2c3d4e5f60718293a4b" 10;
                          Sample.request "65a1b2c3d4e5f60718293a4b" 10]
              Sample.world))
    = inr (mkBookingConfirmation "confirmed" id1,
           mkBookingConfirmation "confirmed" id2)
    /\ db (snd (interleaved (Sample.request "65a1b2c3d4e5f60718293a4b" 10)
                  (Sample.request "65a1b2c3d4e5f60718293a4b" 6)
                  (run_bookings
                     [Sample.request "65a1b2c3d4e5f60718293a4b" 10;
                      Sample.request "65a1b2c3d4e5f60718293a4b" 10;
                      Sample.request "65a1b2c3d4e5f60718293a4b" 10]
                     Sample.world))) = Some st'
    /\ 40 < seats_booked (bookings_of st' "65a1b2c3d4e5f60718293a4b").
Proof.
  destruct (interleaved_requests_overbook
              (Sample.request "65a1b2c3d4e5f60718293a4b" 10)
              (Sample.request "65a1b2c3d4e5f60718293a4b" 6)
              (run_bookings [Sample.request "65a1b2c3d4e5f60718293a4b" 10;
                             Sample.request "65a1b2c3d4e5f60718293a4b" 10;
                             Sample.request "65a1b2c3d4e5f60718293a4b" 10]
                 Sample.world)
              (with_booking
                 (with_booking
                    (with_booking Sample.store
                       (Sample.request "65a1b2c3d4e5f60718293a4b" 10))
                    (Sample.request "65a1b2c3d4e5f60718293a4b" 10))
                 (Sample.request "65a1b2c3d4e5f60718293a4b" 10))
              Sample.morning_trip 40)
    as (_ & id1 & id2 & st' & Hres & Hdb & _ & Hover).
  - vm_compute. reflexivity.
  - intros n. reflexivity.
  - simpl. repeat constructor; simpl; intuition discriminate.
  - simpl. auto.
  - reflexivity.
  - reflexivity.
  - reflexivity.
  - reflexivity.
  - vm_compute. discriminate.
  - vm_compute. discriminate.
  - vm_compute. reflexivity.
  - exists id1, id2, st'. auto.
Defined.

(* ------------------------------------------------------------------ *)
(** ** Seeding *)

Lemma count_documents_up {D} (coll : Collection D) (w : World) (st : Store) :
  db w = Some st -> outage w (List.length (calls w)) = false ->
  count_documents coll w
  = (inr (List.length (coll_docs coll st)),
     after w (FindMany (coll_name coll) []) st).
Proof.
  intros Hdb Hup. unfold count_documents.
  rewrite (store_call_up _ _ w st Hdb Hup). reflexivity.
Qed.

Lemma create_document_up {D} (coll : Collection D) (fields : oid -> D)
    (w : World) (st : Store) :
  db w = Some st -> outage w (List.length (calls w)) = false ->
  create_document coll fields w
  = (inr (Bson.of_counter (next_oid st)),
     after w (InsertOne (coll_name coll)) (inserted coll fields st)).
Proof.
  intros Hdb Hup. unfold create_document.
  rewrite (store_call_up _ _ w st Hdb Hup). reflexivity.
Qed.

Lemma for_each_create_up (fs : list (oid -> Trip)) :
  forall (w : World) (st : Store),
    db w = Some st -> reachable w ->
    exists ids w',
      for_each fs (create_document trip) w = (inr ids, w')
      /\ db w' = Some (fold_left (fun acc f => inserted trip f acc) fs st)
      /\ outage w' = outage w /\ regex w' = regex w
      /\ calls w' = calls w ++ map (fun _ => InsertOne "trip") fs.
Proof.
  induction fs as [|f fs IH]; intros w st Hdb Hup; simpl.
  - exists [], w. rewrite app_nil_r. repeat split; auto.
  - unfold bind at 1.
    rewrite (create_document_up trip f w st Hdb (Hup _)).
    destruct (IH (after w (InsertOne (coll_name trip)) (inserted trip f st))
                (inserted trip f st) eq_refl)
      as (ids & w' & Hrun & Hdb' & Hout & Hre & Hcalls).
    { intros n. apply Hup. }
    unfold bind. rewrite Hrun. unfold ret.
    eexists _, w'. split; [reflexivity|].
    rewrite Hdb', Hout, Hre, Hcalls. simpl. rewrite <- app_assoc.
    repeat split.
Qed.

(** [seed_sample_data] on a store without trips, within reach. *)
Lemma seed_sample_data_up (today tomorrow : string) (w : World)
    (st : Store) :
  db w = Some st -> reachable w -> trips st = [] ->
  exists w',
    seed_sample_data today tomorrow w
    = (inr (mkSeedResponse "ok" "Seeded sample trips"), w')
    /\ db w' = Some (seeded st today tomorrow)
    /\ outage w' = outage w
    /\ List.length (calls w') = (List.length (calls w) + 7)%nat.
Proof.
  intros Hdb Hup Hempty.
  unfold seed_sample_data, bind, require_db. rewrite Hdb.
  rewrite (count_documents_up trip w st Hdb (Hup _)).
  change (coll_docs trip st) with (trips st). rewrite Hempty.
  change (0 <? List.length (@nil Trip))%nat with false. cbv beta iota.
  set (w1 := after w _ st).
  rewrite (create_document_up busroute route_ny_bos w1 st eq_refl (Hup _)).
  set (st1 := inserted busroute route_ny_bos st).
  set (w2 := after w1 _ st1).
  rewrite (create_document_up busroute route_sf_la w2 st1 eq_refl (Hup _)).
  set (st2 := inserted busroute route_sf_la st1).
  set (w3 := after w2 _ st2).
  destruct (for_each_create_up
              (sample_trips (Bson.of_counter (next_oid st))
                 (Bson.of_counter (next_oid st1)) today tomorrow)
              w3 st2 eq_refl)
    as (ids & w' & Hrun & Hdb' & Hout & _ & Hcalls).
  { intros n. apply Hup. }
  rewrite Hrun. unfold ret. exists w'.
  split; [reflexivity|]. split; [exact Hdb'|]. split; [exact Hout|].
  rewrite Hcalls. unfold w3, w2, w1, after; simpl calls.
  rewrite !length_app. simpl. lia.
Qed.

Lemma seed_skips_store_like (today tomorrow : string) (w : World)
    (st : Store) :
  db w = Some st -> outage w (List.length (calls w)) = false ->
  trips st <> [] ->
  seed_sample_data today tomorrow w
  = (inr (mkSeedResponse "ok" "Trips already seeded"),
     after w (FindMany "trip" []) st).
Proof.
  intros Hdb Hup Hsome.
  unfold seed_sample_data, bind, require_db. rewrite Hdb.
  rewrite (count_documents_up trip w st Hdb Hup).
  change (coll_docs trip st) with (trips st).
  destruct (trips st); [contradiction|]. reflexivity.
Qed.

(** X13. On a store that holds a trip, [seed_sample_data] answers "Trips
    already seeded" after the one count of the trips and inserts nothing. *)
Theorem seed_skips_store_with_trips
    (today tomorrow : string) (w : World) (st : Store) :
  db w = Some st -> outage w (List.length (calls w)) = false ->
  trips st <> [] ->
  seed_sample_data today tomorrow w
  = (inr (mkSeedResponse "ok" "Trips already seeded"),
     after w (FindMany "trip" []) st).
Proof.
  exact (seed_skips_store_like today tomorrow w st).
Qed.

Lemma seed_skips_store_with_trips_witness :
  fst (seed_sample_data "2026-11-04" "2026-11-05" Sample.world)
  = inr (mkSeedResponse "ok" "Trips already seeded")
  /\ db (snd (seed_sample_data "2026-11-04" "2026-11-05" Sample.world))
     = Some Sample.store.
Proof.
  rewrite (seed_skips_store_with_trips "2026-11-04" "2026-11-05"
             Sample.world Sample.store eq_refl eq_refl).
  - split; reflexivity.
  - discriminate.
Defined.



(** X15. Seeding twice is seeding once: after [seed_sample_data] has seeded
    a store without trips, a second run answers "Trips already seeded" and
    leaves the store as the first run left it. *)
Theorem seed_twice_is_seed_once
    (today tomorrow today' tomorrow' : string) (w : World) (st : Store) :
  db w = Some st -> reachable w -> trips st = [] ->
  fst (seed_sample_data today' tomorrow'
         (snd (seed_sample_data today tomorrow w)))
  = inr (mkSeedResponse "ok" "Trips already seeded")
  /\ db (snd (seed_sample_data today' tomorrow'
                (snd (seed_sample_data today tomorrow w))))
     = db (snd (seed_sample_data today tomorrow w)).
Proof.
  intros Hdb Hup Hempty.
  destruct (seed_sample_data_up today tomorrow w st Hdb Hup Hempty)
    as (w' & Hrun & Hdb' & Hout & _).
  rewrite Hrun. simpl snd.
  assert (outage w' (List.length (calls w')) = false) as Hup'
    by (rewrite Hout; apply Hup).
  rewrite (seed_skips_store_like today' tomorrow' w' _ Hdb' Hup').
  - split; [reflexivity|]. simpl. symmetry. exact Hdb'.
  - unfold seeded, inserted; simpl. rewrite Hempty. discriminate.
Qed.

Lemma seed_twice_is_seed_once_witness :
  fst (seed_sample_data "2026-11-05" "2026-11-06"
         (snd (seed_sample_data "2026-11-04" "2026-11-05"
                 (mkWorld (Some (mkStore [] [] [] 0)) Pcre.compile
                    (fun _ => false) []))))
  = inr (mkSeedResponse "ok" "Trips already seeded")
  /\ db (snd (seed_sample_data "2026-11-05" "2026-11-06"
                (snd (seed_sample_data "2026-11-04" "2026-11-05"
                        (mkWorld (Some (mkStore [] [] [] 0)) Pcre.compile
                           (fun _ => false) [])))))
     = db (snd (seed_sample_data "2026-11-04" "2026-11-05"
                  (mkWorld (Some (mkStore [] [] [] 0)) Pcre.compile
                     (fun _ => false) []))).
Proof.
  apply (seed_twice_is_seed_once "2026-11-04" "2026-11-05" "2026-11-05"
           "2026-11-06"
           (mkWorld (Some (mkStore [] [] [] 0)) Pcre.compile
              (fun _ => false) [])
           (mkStore [] [] [] 0)).
  - reflexivity.
  - intros n. reflexivity.
  - reflexivity.
Defined.

Lemma length_calls_after (w : World) (c : call) (st : Store) :
  List.length (calls (after w c st)) = S (List.length (calls w)).
Proof. unfold after; simpl. rewrite length_app. simpl. lia. Qed.

(** [seed_sample_data] when the store fails at the first trip insert. *)
Lemma seed_sample_data_interrupted (today tomorrow : string) (w : World)
    (st : Store) :
  db w = Some st -> trips st = [] ->
  outage w (List.length (calls w)) = false ->
  outage w (S (List.length (calls w))) = false ->
  outage w (S (S (List.length (calls w)))) = false ->
  outage w (S (S (S (List.length (calls w))))) = true ->
  exists w',
    seed_sample_data today tomorrow w = (inl ServerUnavailable, w')
    /\ db w'
       = Some (inserted busroute route_sf_la
                 (inserted busroute route_ny_bos st)).
Proof.
  intros Hdb Hempty H0 H1 H2 H3.
  unfold seed_sample_data, bind, require_db. rewrite Hdb.
  rewrite (count_documents_up trip w st Hdb H0).
  change (coll_docs trip st) with (trips st). rewrite Hempty.
  change (0 <? List.length (@nil Trip))%nat with false. cbv beta iota.
  set (w1 := after w _ st).
  assert (outage w1 (List.length (calls w1)) = false) as H1'
    by (unfold w1; rewrite length_calls_after; exact H1).
  rewrite (create_document_up busroute route_ny_bos w1 st eq_refl H1').
  set (st1 := inserted busroute route_ny_bos st).
  set (w1' := after w1 _ st1).
  assert (outage w1' (List.length (calls w1')) = false) as H2'
    by (unfold w1', w1; rewrite !length_calls_after; exact H2).
  rewrite (create_document_up busroute route_sf_la w1' st1 eq_refl H2').
  set (st2 := inserted busroute route_sf_la st1).
  set (w1'' := after w1' _ st2).
  assert (outage w1'' (List.length (calls w1'')) = true) as H3'
    by (unfold w1'', w1', w1; rewrite !length_calls_after; exact H3).
  simpl for_each. unfold bind at 1. unfold create_document at 1.
  rewrite (store_call_down _ _ w1'' st2 eq_refl H3').
  eexists. split; reflexivity.
Qed.

(** X16. Seeding is not one step: when the store, without trips, answers
    the count and the two route inserts and fails at the first trip insert,
    [seed_sample_data] raises that failure with the two routes stored and
    no trip; the next seeding therefore does not skip and stores the two
    routes a second time. *)
Theorem interrupted_seed_repeats_routes
    (today tomorrow : string) (w w2 : World) (st : Store) :
  db w = Some st -> trips st = [] ->
  outage w (List.length (calls w)) = false ->
  outage w (S (List.length (calls w))) = false ->
  outage w (S (S (List.length (calls w)))) = false ->
  outage w (S (S (S (List.length (calls w))))) = true ->
  db w2 = db (snd (seed_sample_data today tomorrow w)) -> reachable w2 ->
  exists st1 st2,
    fst (seed_sample_data today tomorrow w) = inl ServerUnavailable
    /\ db (snd (seed_sample_data today tomorrow w)) = Some st1
    /\ map route_origin (busroutes st1)
       = map route_origin (busroutes st)
         ++ [Some "New York"; Some "San Francisco"]
    /\ trips st1 = []
    /\ fst (seed_sample_data today tomorrow w2)
       = inr (mkSeedResponse "ok" "Seeded sample trips")
    /\ db (snd (seed_sample_data today tomorrow w2)) = Some st2
    /\ map route_origin (busroutes st2)
       = map route_origin (busroutes st)
         ++ [Some "New York"; Some "San Francisco";
             Some "New York"; Some "San Francisco"].
Proof.
  intros Hdb Hempty H0 H1 H2 H3.
  destruct (seed_sample_data_interrupted today tomorrow w st Hdb Hempty
              H0 H1 H2 H3) as (w' & Hfail & Hdb').
  rewrite Hfail. simpl fst; simpl snd. rewrite Hdb'. intros Hdb2 Hup2.
  set (st2 := inserted busroute route_sf_la
                (inserted busroute route_ny_bos st)) in *.
  assert (trips st2 = []) as Hempty2 by (simpl; exact Hempty).
  destruct (seed_sample_data_up today tomorrow w2 st2 Hdb2 Hup2 Hempty2)
    as (w3 & Hrun & Hdb3 & _ & _).
  exists st2, (seeded st2 today tomorrow).
  split; [reflexivity|]. split; [reflexivity|].
  split; [simpl; rewrite <- app_assoc, map_app; reflexivity|].
  split; [exact Hempty2|].
  rewrite Hrun. split; [reflexivity|]. split; [exact Hdb3|].
  unfold seeded, inserted; simpl.
  rewrite <- !app_assoc, map_app. reflexivity.
Qed.

Lemma interrupted_seed_repeats_routes_witness :
  exists st1 st2,
    fst (seed_sample_data "2026-11-04" "2026-11-05"
           (mkWorld (Some (mkStore [] [] [] 0)) Pcre.compile
              (fun n => Nat.eqb n 3) []))
    = inl ServerUnavailable
    /\ db (snd (seed_sample_data "2026-11-04" "2026-11-05"
                  (mkWorld (Some (mkStore [] [] [] 0)) Pcre.compile
                     (fun n => Nat.eqb n 3) []))) = Some st1
    /\ trips st1 = []
    /\ db (snd (seed_sample_data "2026-11-04" "2026-11-05"
                  (mkWorld (Some st1) Pcre.compile (fun _ => false) [])))
       = Some st2
    /\ map route_origin (busroutes st2)
       = [Some "New York"; Some "San Francisco";
          Some "New York"; Some "San Francisco"].
Proof.
  destruct (interrupted_seed_repeats_routes "2026-11-04" "2026-11-05"
              (mkWorld (Some (mkStore [] [] [] 0)) Pcre.compile
                 (fun n => Nat.eqb n 3) [])
              (mkWorld
                 (db (snd (seed_sample_data "2026-11-04" "2026-11-05"
                             (mkWorld (Some (mkStore [] [] [] 0))
                                Pcre.compile (fun n => Nat.eqb n 3) []))))
                 Pcre.compile (fun _ => false) [])
              (mkStore [] [] [] 0))
    as (st1 & st2 & Hfail & Hdb1 & _ & Hempty & _ & Hdb2 & Hroutes).
  - reflexivity.
  - reflexivity.
  - reflexivity.
  - reflexivity.
  - reflexivity.
  - reflexivity.
  - reflexivity.
  - intros n. reflexivity.
  - exists st1, st2. rewrite Hdb1 in Hdb2. simpl in Hroutes. auto.
Defined.

(* ------------------------------------------------------------------ *)
(** ** The floor at zero and the spelling of identifiers *)

(** X17. The availability is floored at zero: when the bookings stored
    under the trip identifier text of a request already hold the capacity
    of the trip that text reads as, or more, the availability computed for
    the request is 0, not negative, and the request, for at least one seat,
    is refused with "Only 0 seats available", the store left as it was. *)
Theorem overbooked_trip_refuses_with_zero
    (payload : BookingRequest) (w : World) (st : Store) (t : Trip)
    (capacity : Z) :
  db w = Some st -> reachable w ->
  NoDup (map trip_id (trips st)) -> In t (trips st) ->
  trip_capacity t = Some capacity ->
  ObjectId (req_trip_id payload) = inr (trip_id t) ->
  capacity <= seats_booked (bookings_of st (req_trip_id payload)) ->
  1 <= req_seats payload ->
  available t (bookings_of st (req_trip_id payload)) = 0
  /\ fst (book_trip payload w)
     = inl (HTTPException 400 "Only 0 seats available")
  /\ db (snd (book_trip payload w)) = Some st.
Proof.
  intros Hdb Hup Hnd Ht Hcap Hid Hfull Hmin.
  assert (available t (bookings_of st (req_trip_id payload)) = 0) as Hzero.
  { unfold available. rewrite Hcap. simpl Py.get. lia. }
  split; [exact Hzero|].
  pose proof (find_by_id t (trips st) Hnd Ht) as Hfind.
  rewrite (book_trip_found payload w st (trip_id t) t Hdb Hup Hid Hfind).
  cbv zeta. rewrite Hzero.
  destruct (Z.ltb_spec 0 (req_seats payload)) as [_|Hle]; [|lia].
  split; reflexivity.
Qed.

Lemma overbooked_trip_refuses_with_zero_witness :
  available Sample.morning_trip
    (bookings_of
       (mkStore [] [Sample.morning_trip]
          [Sample.booked "01" (Some 30); Sample.booked "02" (Some 30)] 3)
       "65a1b2c3d4e5f60718293a4b") = 0
  /\ fst (book_trip (Sample.request "65a1b2c3d4e5f60718293a4b" 1)
            (mkWorld
               (Some (mkStore [] [Sample.morning_trip]
                        [Sample.booked "01" (Some 30);
                         Sample.booked "02" (Some 30)] 3))
               Pcre.compile (fun _ => false) []))
     = inl (HTTPException 400 "Only 0 seats available")
  /\ db (snd (book_trip (Sample.request "65a1b2c3d4e5f60718293a4b" 1)
                (mkWorld
                   (Some (mkStore [] [Sample.morning_trip]
                            [Sample.booked "01" (Some 30);
                             Sample.booked "02" (Some 30)] 3))
                   Pcre.compile (fun _ => false) [])))
     = Some (mkStore [] [Sample.morning_trip]
               [Sample.booked "01" (Some 30); Sample.booked "02" (Some 30)]
               3).
Proof.
  apply (overbooked_trip_refuses_with_zero
           (Sample.request "65a1b2c3d4e5f60718293a4b" 1)
           (mkWorld
              (Some (mkStore [] [Sample.morning_trip]
                       [Sample.booked "01" (Some 30);
                        Sample.booked "02" (Some 30)] 3))
              Pcre.compile (fun _ => false) [])
           (mkStore [] [Sample.morning_trip]
              [Sample.booked "01" (Some 30); Sample.booked "02" (Some 30)] 3)
           Sample.morning_trip 40).
  - reflexivity.
  - intros n. reflexivity.
  - simpl. repeat constructor; simpl; intuition discriminate.
  - simpl. auto.
  - reflexivity.
  - reflexivity.
  - vm_compute. discriminate.
  - simpl. lia.
Defined.

(** X18. The trip is looked up by the identifier [ObjectId] reads, the
    bookings are counted under the text of the request: a request whose
    text reads as the identifier of a trip, with no booking stored under
    that text, is confirmed for any seat count within the capacity,
    whatever the bookings stored under the trip's own identifier. *)
Theorem bookings_counted_under_request_text
    (payload : BookingRequest) (w : World) (st : Store) (t : Trip)
    (capacity : Z) :
  db w = Some st -> reachable w ->
  NoDup (map trip_id (trips st)) -> In t (trips st) ->
  trip_capacity t = Some capacity ->
  ObjectId (req_trip_id payload) = inr (trip_id t) ->
  bookings_of st (req_trip_id payload) = [] ->
  req_seats payload <= capacity ->
  fst (book_trip payload w)
  = inr (mkBookingConfirmation "confirmed" (Bson.of_counter (next_oid st)))
  /\ db (snd (book_trip payload w)) = Some (with_booking st payload).
Proof.
  intros Hdb Hup Hnd Ht Hcap Hid Hnone Hle.
  pose proof (find_by_id t (trips st) Hnd Ht) as Hfind.
  rewrite (book_trip_found payload w st (trip_id t) t Hdb Hup Hid Hfind).
  cbv zeta. rewrite Hnone. unfold available. rewrite Hcap.
  change (seats_booked []) with 0. simpl Py.get.
  destruct (Z.ltb_spec (Z.max 0 (capacity - 0)) (req_seats payload))
    as [Hlt|_]; [lia|].
  split; reflexivity.
Qed.

Lemma bookings_counted_under_request_text_witness :
  availability
    (mkStore [] [Sample.morning_trip] [Sample.booked "01" (Some 40)] 2)
    Sample.morning_trip = 0
  /\ fst (book_trip (Sample.request "65A1B2C3D4E5F60718293A4B" 10)
            (mkWorld
               (Some (mkStore [] [Sample.morning_trip]
                        [Sample.booked "01" (Some 40)] 2))
               Pcre.compile (fun _ => false) []))
     = inr (mkBookingConfirmation "confirmed" "000000000000000000000002").
Proof.
  split; [reflexivity|].
  apply (bookings_counted_under_request_text
           (Sample.request "65A1B2C3D4E5F60718293A4B" 10)
           (mkWorld
              (Some (mkStore [] [Sample.morning_trip]
                       [Sample.booked "01" (Some 40)] 2))
              Pcre.compile (fun _ => false) [])
           (mkStore [] [Sample.morning_trip]
              [Sample.booked "01" (Some 40)] 2)
           Sample.morning_trip 40).
  - reflexivity.
  - intros n. reflexivity.
  - simpl. repeat constructor; simpl; intuition discriminate.
  - simpl. auto.
  - reflexivity.
  - reflexivity.
  - reflexivity.
  - simpl. lia.
Defined.

(* ------------------------------------------------------------------ *)
(** ** The text of identifiers and of patterns *)

Import Cases.

(** The upper-case text reads as the identifier of the morning trip. *)
Lemma upper_id_reads_as_own :
  ObjectId upper_id = inr (trip_id Sample.morning_trip)
  /\ ObjectId own_id = inr (trip_id Sample.morning_trip).
Proof. split; reflexivity. Qed.

(** C1. Five requests of 10 seats for the trip of 40 seats, run one after
    the other from the store without bookings, four under the trip's
    identifier as the store prints it and the fifth under the same
    identifier in upper case, are all confirmed: the five bookings stored
    all reference the trip and hold 50 seats together, 10 more than its
    capacity. *)
Theorem sequential_bookings_exceed_capacity :
  trip_capacity Sample.morning_trip = Some 40
  /\ db (run_bookings fill Sample.world) = Some full_store
  /\ fst (book_trip (Sample.request upper_id 10)
            (run_bookings fill Sample.world))
     = inr (mkBookingConfirmation "confirmed" "000000000000000000000005")
  /\ db (run_bookings (fill ++ [Sample.request upper_id 10]) Sample.world)
     = Some (with_booking full_store (Sample.request upper_id 10))
  /\ List.length
       (bookings_referencing
          (with_booking full_store (Sample.request upper_id 10))
          Sample.morning_trip) = 5%nat
  /\ seats_booked
       (bookings_referencing
          (with_booking full_store (Sample.request upper_id 10))
          Sample.morning_trip) = 50.
Proof. repeat split; vm_compute; reflexivity. Qed.

(** C3, as stated, fails. A request of 5 seats whose identifier, in upper
    case, reads as that of the trip of 40 free seats is confirmed, and the
    availability of the trip is 40 afterwards as before, not 35; and the
    booking stored for a confirmed request has no status field. *)
Lemma booking_within_availability_counterexample :
  ObjectId (req_trip_id (Sample.request upper_id 5))
  = inr (trip_id Sample.morning_trip)
  /\ seats_in_range (Sample.request upper_id 5) = true
  /\ req_seats (Sample.request upper_id 5)
     <= availability Sample.store Sample.morning_trip
  /\ fst (book_trip (Sample.request upper_id 5) Sample.world)
     = inr (mkBookingConfirmation "confirmed" "000000000000000000000001")
  /\ db (snd (book_trip (Sample.request upper_id 5) Sample.world))
     = Some (with_booking Sample.store (Sample.request upper_id 5))
  /\ availability (with_booking Sample.store (Sample.request upper_id 5))
       Sample.morning_trip
     <> availability Sample.store Sample.morning_trip - 5
  /\ map booking_status
       (bookings (with_booking Sample.store (Sample.request own_id 5)))
     <> [Some "confirmed"].
Proof.
  repeat split; try (vm_compute; reflexivity); vm_compute; discriminate.
Qed.

(** C4. On the trip of 40 seats with its 40 seats booked, where the
    availability is 0, a request of 10 seats under the trip's identifier in
    upper case is not refused: it is confirmed and its booking is stored,
    while the same request under the identifier as the store prints it is
    refused with "Only 0 seats available". *)
Theorem respelled_request_admitted_beyond_availability :
  db (run_bookings fill Sample.world) = Some full_store
  /\ availability full_store Sample.morning_trip = 0
  /\ ObjectId (req_trip_id (Sample.request upper_id 10))
     = inr (trip_id Sample.morning_trip)
  /\ fst (book_trip (Sample.request upper_id 10)
            (run_bookings fill Sample.world))
     = inr (mkBookingConfirmation "confirmed" "000000000000000000000005")
  /\ db (snd (book_trip (Sample.request upper_id 10)
                (run_bookings fill Sample.world)))
     = Some (with_booking full_store (Sample.request upper_id 10))
  /\ fst (book_trip (Sample.request own_id 10)
            (run_bookings fill Sample.world))
     = inl (HTTPException 400 "Only 0 seats available").
Proof. repeat split; vm_compute; reflexivity. Qed.

(** C7. The pair of origin [.*] and destination "Boston" matches no route
    of the store, whose origins are "New York" and "San Francisco"; the
    search does not return the empty list after its route query: it makes
    4 calls to the store, among them the trip query and two bookings
    queries, and returns 2 trips. With origin [(] the route query is
    rejected and the search raises. *)
Theorem unmatched_pair_still_queries_trips :
  forallb (fun r => negb (pair_matches ".*" "Boston" r))
    (busroutes Sample.store) = true
  /\ map (fun item => trip_id (item_trip item))
       (match fst (search_trips ".*" "Boston" "2026-11-04" Sample.world) with
        | inr items => items
        | inl _ => []
        end)
     = [trip_id Sample.morning_trip; trip_id Sample.unsized_trip]
  /\ calls (snd (search_trips ".*" "Boston" "2026-11-04" Sample.world))
     = [FindMany "busroute" (route_filter ".*" "Boston");
        FindMany "trip"
          [("route_id", In_ [Bson.str (route_id Sample.route_ny_bos)]);
           ("travel_date", Eq "2026-11-04")];
        bookings_query Sample.morning_trip;
        bookings_query Sample.unsized_trip]
  /\ forallb (fun r => negb (pair_matches "(" "Boston" r))
       (busroutes Sample.store) = true
  /\ fst (search_trips "(" "Boston" "2026-11-04" Sample.world)
     = inl OperationFailure.
Proof. repeat split; vm_compute; reflexivity. Qed.
